(** * WireTuner Explorer thumbnail provider

    A shallow embedding of [tools/platform/explorer/preview_handler.cpp]:
    the thumbnail pipeline of [WireTunerThumbnailProvider]
    ([GetThumbnail], [GenerateThumbnail], [FindWireTunerCLI],
    [GeneratePlaceholder]) over a small model of the Win32, CRT and GDI+
    calls it makes. *)

From stdpp Require Import base strings gmap list pretty.
From Equations Require Import Equations.
From Stdlib Require Import Ascii ZArith Lia.

Local Open Scope string_scope.
Local Open Scope list_scope.
Local Open Scope Z_scope.

(** ** Machine integers

    [UINT] and [DWORD] are 32-bit unsigned, [INT] and [HRESULT] 32-bit
    signed, [ULONGLONG] 64-bit unsigned.  Values are kept in [Z]; the
    conversions below write the wrap-around out. *)

Definition UINT_MAX : Z := 2 ^ 32 - 1.
Definition INT_MAX : Z := 2 ^ 31 - 1.

Definition is_UINT (z : Z) : Prop := 0 <= z <= UINT_MAX.
Definition is_ULONGLONG (z : Z) : Prop := 0 <= z < 2 ^ 64.

(** Conversion to a 32-bit unsigned value. *)
Definition to_UINT (z : Z) : Z := z mod 2 ^ 32.

(** Conversion to a 32-bit signed value (two's complement). *)
Definition to_INT (z : Z) : Z :=
  let u := z mod 2 ^ 32 in
  if u <? 2 ^ 31 then u else u - 2 ^ 32.

(** [HRESULT] codes and the [FAILED] macro of [winerror.h]. *)
Definition HRESULT := Z.
Definition S_OK : HRESULT := 0.
Definition E_FAIL : HRESULT := to_INT 0x80004005.
Definition FAILED (hr : HRESULT) : bool := hr <? 0.
Definition SUCCEEDED (hr : HRESULT) : bool := 0 <=? hr.

(** Wait results and exit codes of [winbase.h]. *)
Definition WAIT_OBJECT_0 : Z := 0.
Definition WAIT_TIMEOUT : Z := 258.
Definition STILL_ACTIVE : Z := 259.

(** [WTS_ALPHATYPE] of [thumbcache.h]. *)
Definition WTSAT_ARGB : Z := 2.

(** ** [std::wstring] operations used by the provider *)

Module wstring.

(** [s.find(c)]: index of the first occurrence of [c], [None] for
    [npos]. *)
Fixpoint find (c : ascii) (s : string) : option nat :=
  match s with
  | EmptyString => None
  | String a s' => if Ascii.eqb a c then Some 0%nat else S <$> find c s'
  end.

(** [s.substr(0, n)]. *)
Fixpoint substr0 (n : nat) (s : string) : string :=
  match n, s with
  | S n', String a s' => String a (substr0 n' s')
  | _, _ => EmptyString
  end.

(** [s.erase(0, n)]. *)
Fixpoint erase0 (n : nat) (s : string) : string :=
  match n, s with
  | S n', String _ s' => erase0 n' s'
  | _, _ => s
  end.

Definition empty (s : string) : bool :=
  match s with EmptyString => true | _ => false end.

End wstring.

(** ** Shlwapi and CRT string functions *)

(** [PathFindFileNameW]: the part of the path after the last separator
    (['\'], ['/'] or [':']) that is followed by a character other than
    ['\'] and ['/']; the whole path when there is none. *)
Definition is_separator (c : ascii) : bool :=
  Ascii.eqb c "\" || Ascii.eqb c "/" || Ascii.eqb c ":".

Definition starts_name (s : string) : bool :=
  match s with
  | EmptyString => false
  | String c _ => negb (Ascii.eqb c "\" || Ascii.eqb c "/")
  end.

Fixpoint PathFindFileNameW_from (last s : string) : string :=
  match s with
  | EmptyString => last
  | String c rest =>
      if is_separator c && starts_name rest
      then PathFindFileNameW_from rest rest
      else PathFindFileNameW_from last rest
  end.

Definition PathFindFileNameW (path : string) : string :=
  PathFindFileNameW_from path path.

(** The conversions [%u] (32-bit unsigned) and [%llu] (64-bit unsigned)
    of the [printf] family: decimal, no sign, no leading zeros. *)
Definition fmt_u (z : Z) : string := pretty (Z.to_N (z mod 2 ^ 32)).
Definition fmt_llu (z : Z) : string := pretty (Z.to_N (z mod 2 ^ 64)).

(** [swprintf_s] on a buffer of [capacity] wide characters: the
    formatted [text] is stored when it fits together with its
    terminating null; otherwise the CRT invokes the invalid-parameter
    handler, which by default terminates the process ([None]). *)
Definition swprintf_s (capacity : nat) (text : string) : option string :=
  if decide (String.length text < capacity)%nat then Some text else None.

(** ** GDI+ objects *)

(** [Gdiplus::Color], as alpha, red, green, blue. *)
Record Color := ARGB { alpha : Z; red : Z; green : Z; blue : Z }.

(** The constructors [Color(r, g, b)] (opaque) and [Color(a, r, g, b)]. *)
Definition Color3 (r g b : Z) : Color := ARGB 255 r g b.
Definition Color4 (a r g b : Z) : Color := ARGB a r g b.

Inductive PixelFormat := PixelFormat32bppARGB | PixelFormatOther.

(** What a [Graphics] object has painted on a bitmap, oldest first.
    Coordinates and extents are the [INT] arguments of the calls. *)
Inductive DrawOp :=
| op_FillRectangle (brush : Color) (x y w h : Z)
| op_FillEllipse (brush : Color) (x y w h : Z).

(** A [Gdiplus::Bitmap]: its extent, its pixel format and what has been
    drawn on it. *)
Record Bitmap := mkBitmap {
  bm_width : Z;
  bm_height : Z;
  bm_format : PixelFormat;
  bm_drawn : list DrawOp
}.

(** GDI+ gives every call on a bitmap of non-positive extent the status
    [InvalidParameter]. *)
Definition bm_valid (b : Bitmap) : bool :=
  (0 <? bm_width b) && (0 <? bm_height b).

(** A GDI bitmap made by [Bitmap::GetHBITMAP]: the source raster
    composed over a background colour.  [HBITMAP] is a handle to one,
    [None] being the null handle. *)
Record GdiBitmap := mkGdiBitmap {
  hb_image : Bitmap;
  hb_background : Color
}.

Definition HBITMAP := option GdiBitmap.
Definition NULL : HBITMAP := None.

Definition hb_width (h : GdiBitmap) : Z := bm_width (hb_image h).
Definition hb_height (h : GdiBitmap) : Z := bm_height (hb_image h).

(** ** The operating system *)

(** [FILETIME]: two [DWORD]s. *)
Record FILETIME := mkFILETIME { dwLowDateTime : Z; dwHighDateTime : Z }.

(** [ULARGE_INTEGER]: [QuadPart] read after writing [LowPart] and
    [HighPart]. *)
Definition QuadPart (LowPart HighPart : Z) : Z :=
  to_UINT HighPart * 2 ^ 32 + to_UINT LowPart.

(** A file: its last write time, and the raster GDI+ decodes from its
    content ([None] when the content is not a decodable image). *)
Record File := mkFile {
  ftLastWriteTime : FILETIME;
  image : option Bitmap
}.

(** A child process: when it exits (milliseconds after its launch,
    [None] if it never does), its exit status, and the files it has
    written by then. *)
Record Child := mkChild {
  exits_after : option Z;
  exit_status : Z;
  writes : gmap string File
}.

(** The environment of one call: the temp directory as [GetTempPathW]
    reports it (with its trailing backslash), the environment
    variables, the file system, what [CreateProcessW] does with a
    command line ([None]: the launch fails), and whether GDI can
    allocate a bitmap for a raster. *)
Record OS := mkOS {
  temp_path : string;
  environment : gmap string string;
  files : gmap string File;
  launch : string → option Child;
  gdi_alloc : Bitmap → bool
}.

(** The system calls a run makes, in order. *)
Inductive Call :=
| call_GetTempPathW
| call_CreateDirectoryW (dir : string)
| call_GetFileAttributesExW (path : string)
| call_PathFileExistsW (path : string)
| call_GetEnvironmentVariableW (name : string)
| call_CreateProcessW (cmdLine : string)
| call_WaitForSingleObject (dwMilliseconds : Z)
| call_GetExitCodeProcess
| call_CloseHandle
| call_Bitmap_FromFile (path : string).

(** The state threaded through a run: the file system (children write
    to it), the milliseconds spent waiting so far, and the calls made,
    oldest first. *)
Record Sys := mkSys {
  fs : gmap string File;
  clock : Z;
  trace : list Call
}.

Definition boot (os : OS) : Sys := mkSys (files os) 0 [].

(** A process handle: the child and the clock reading at its launch. *)
Record Process := mkProcess { proc_child : Child; proc_started : Z }.

(** ** The monad of the embedding

    A computation reads the environment, threads [Sys], and either
    returns or ends in the CRT's invalid-parameter handler. *)

Inductive exec (A : Type) :=
| Returned (a : A) (σ : Sys)
| InvalidParameter (σ : Sys).
Arguments Returned {A} a σ.
Arguments InvalidParameter {A} σ.

Definition M (A : Type) : Type := OS → Sys → exec A.

Definition ret {A} (a : A) : M A := λ _ σ, Returned a σ.

Definition bind {A B} (m : M A) (f : A → M B) : M B :=
  λ os σ,
    match m os σ with
    | Returned a σ' => f a os σ'
    | InvalidParameter σ' => InvalidParameter σ'
    end.

Notation "'let*' x ':=' m 'in' k" := (bind m (λ x, k))
  (at level 10, x pattern, m at level 100, k at level 200, only parsing).
Notation "m ';;' k" := (bind m (λ _, k))
  (at level 100, k at level 200, right associativity, only parsing).

(** The state after some more calls. *)
Definition logged (σ : Sys) (cs : list Call) : Sys :=
  mkSys (fs σ) (clock σ) (trace σ ++ cs).

(** Record a call and return its result. *)
Definition syscall {A} (c : Call) (f : OS → Sys → A * Sys) : M A :=
  λ os σ, let '(a, σ') := f os σ in Returned a (logged σ' [c]).

Definition lift_crt {A} (r : option A) : M A :=
  λ _ σ, match r with Some a => Returned a σ | None => InvalidParameter σ end.

(** A run started from [boot os], the value it returns and the calls
    it made. *)
Definition run {A} (m : M A) (os : OS) : exec A := m os (boot os).

Definition result {A} (r : exec A) : option A :=
  match r with Returned a _ => Some a | InvalidParameter _ => None end.

Definition final {A} (r : exec A) : Sys :=
  match r with Returned _ σ => σ | InvalidParameter σ => σ end.

Definition calls {A} (r : exec A) : list Call := trace (final r).

(** ** Win32 and GDI+ calls *)

Definition GetTempPathW : M string :=
  syscall call_GetTempPathW (λ os σ, (temp_path os, σ)).

(** Directories are not tracked; the provider ignores the outcome. *)
Definition CreateDirectoryW (dir : string) : M unit :=
  syscall (call_CreateDirectoryW dir) (λ _ σ, (tt, σ)).

Definition GetFileAttributesExW (path : string) : M (option FILETIME) :=
  syscall (call_GetFileAttributesExW path)
          (λ _ σ, (ftLastWriteTime <$> fs σ !! path, σ)).

Definition PathFileExistsW (path : string) : M bool :=
  syscall (call_PathFileExistsW path)
          (λ _ σ, (bool_decide (is_Some (fs σ !! path)), σ)).

(** The value of the variable and its length; length 0 when the
    variable is not set. *)
Definition GetEnvironmentVariableW (name : string) : M (Z * string) :=
  syscall (call_GetEnvironmentVariableW name)
          (λ os σ, match environment os !! name with
                   | Some v => (Z.of_nat (String.length v), v, σ)
                   | None => (0, EmptyString, σ)
                   end).

Definition CreateProcessW (cmdLine : string) : M (option Process) :=
  syscall (call_CreateProcessW cmdLine)
          (λ os σ, ((λ c, mkProcess c (clock σ)) <$> launch os cmdLine, σ)).

(** Has the child exited at clock reading [now]? *)
Definition exited_by (p : Process) (now : Z) : bool :=
  match exits_after (proc_child p) with
  | Some d => proc_started p + d <=? now
  | None => false
  end.

(** Wait until the child exits or [ms] milliseconds pass.  Once the
    child has exited its files are in the file system. *)
Definition WaitForSingleObject (p : Process) (ms : Z) : M Z :=
  syscall (call_WaitForSingleObject ms)
          (λ _ σ,
             if exited_by p (clock σ + ms)
             then (WAIT_OBJECT_0,
                   mkSys (writes (proc_child p) ∪ fs σ)
                         (Z.max (clock σ)
                                (proc_started p
                                 + default 0 (exits_after (proc_child p))))
                         (trace σ))
             else (WAIT_TIMEOUT, mkSys (fs σ) (clock σ + ms) (trace σ))).

(** The exit status of a child that has exited, [STILL_ACTIVE] while
    it runs. *)
Definition GetExitCodeProcess (p : Process) : M Z :=
  syscall call_GetExitCodeProcess
          (λ _ σ, (if exited_by p (clock σ)
                   then exit_status (proc_child p)
                   else STILL_ACTIVE, σ)).

Definition CloseHandle : M unit :=
  syscall call_CloseHandle (λ _ σ, (tt, σ)).

(** [Bitmap::FromFile] followed by the test
    [!bitmap || bitmap->GetLastStatus() != Ok]: the decoded raster, or
    [None]. *)
Definition Bitmap_FromFile (path : string) : M (option Bitmap) :=
  syscall (call_Bitmap_FromFile path)
          (λ _ σ, (fs σ !! path ≫= image, σ)).

(** [bitmap.GetHBITMAP(background, phbmp)]: on success the new handle is
    stored through [phbmp]; on failure what [phbmp] points to is left
    as it was.  The result is the content of [*phbmp] afterwards. *)
Definition GetHBITMAP (b : Bitmap) (background : Color) (phbmp : HBITMAP)
  : M HBITMAP :=
  λ os σ, Returned (if bm_valid b && gdi_alloc os b
                    then Some (mkGdiBitmap b background)
                    else phbmp) σ.

(** Drawing through a [Graphics] object bound to a bitmap. *)
Definition FillRectangle (b : Bitmap) (brush : Color) (x y w h : Z) : Bitmap :=
  mkBitmap (bm_width b) (bm_height b) (bm_format b)
           (bm_drawn b ++ [op_FillRectangle brush x y w h]).

Definition FillEllipse (b : Bitmap) (brush : Color) (x y w h : Z) : Bitmap :=
  mkBitmap (bm_width b) (bm_height b) (bm_format b)
           (bm_drawn b ++ [op_FillEllipse brush x y w h]).

(** ** The thumbnail provider *)

Record WireTunerThumbnailProvider := mkProvider { m_filePath : string }.

Definition Initialize (pszFilePath : string) : WireTunerThumbnailProvider :=
  mkProvider pszFilePath.

Definition dquote : string := String "034"%char EmptyString.

(** The [searchPaths] table of [FindWireTunerCLI], without its [NULL]
    terminator. *)
Definition searchPaths : list string :=
  [ "C:\Program Files\WireTuner\wiretuner.exe";
    "C:\Program Files (x86)\WireTuner\wiretuner.exe" ].

(** The [for] loop over [searchPaths]. *)
Fixpoint search_installed (paths : list string) : M (option string) :=
  match paths with
  | [] => ret None
  | p :: rest =>
      let* found := PathFileExistsW p in
      if found then ret (Some p) else search_installed rest
  end.

Definition inspect {A} (a : A) : { b : A | a = b } := exist _ a eq_refl.

(** The [while] loop over [path]: as long as [path] holds a [';'], test
    the directory in front of it and erase both. *)
Equations? search_PATH (path : string) : M string
  by wf (String.length path) lt :=
  search_PATH path with inspect (wstring.find ";" path) := {
    | exist _ (Some pos) Hpos =>
        let dir := wstring.substr0 pos path in
        let exePath := dir +:+ "\wiretuner.exe" in
        let* found := PathFileExistsW exePath in
        if found then ret exePath
        else search_PATH (wstring.erase0 (S pos) path)
    | exist _ None _ => ret EmptyString }.
Proof.
  clear search_PATH dir exePath found. revert pos Hpos.
  induction path as [|a path IH]; intros pos Hpos; simpl in *; [done|].
  destruct (Ascii.eqb a ";").
  - inversion Hpos; subst. simpl. lia.
  - destruct (wstring.find ";" path) as [q|] eqn:Hq; [|done].
    inversion Hpos; subst. specialize (IH q eq_refl).
    destruct path; simpl in *; lia.
Qed.

(** [FindWireTunerCLI]: the installation paths, then the directories of
    [PATH]; the empty string when nothing is found. *)
Definition FindWireTunerCLI : M string :=
  let* installed := search_installed searchPaths in
  match installed with
  | Some p => ret p
  | None =>
      let* (pathLen, pathBuf) := GetEnvironmentVariableW "PATH" in
      if 0 <? pathLen then search_PATH pathBuf else ret EmptyString
  end.

(** The text that [swprintf_s] formats with ["%s-%llu-%u.png"]. *)
Definition cacheKey_text (filePath : string) (modTime cx : Z) : string :=
  PathFindFileNameW filePath +:+ "-" +:+ fmt_llu modTime +:+ "-"
  +:+ fmt_u cx +:+ ".png".

(** The cache key: [swprintf_s] into [wchar_t cacheKey[512]]. *)
Definition cacheKey (filePath : string) (modTime cx : Z) : option string :=
  swprintf_s 512 (cacheKey_text filePath modTime cx).

(** The cache directory under the temp directory. *)
Definition cacheDir (tempPath : string) : string :=
  tempPath +:+ "wiretuner-thumbnails\".

(** The command line: [swprintf_s] into [wchar_t cmdLine[2048]] with
    the format ["%s" --generate-thumbnail "%s" "%s" --size %u], each
    path between double quotes. *)
Definition cmdLine_text (cliPath filePath outPath : string) (cx : Z) : string :=
  dquote +:+ cliPath +:+ dquote +:+ " --generate-thumbnail "
  +:+ dquote +:+ filePath +:+ dquote +:+ " "
  +:+ dquote +:+ outPath +:+ dquote +:+ " --size " +:+ fmt_u cx.

(** The last part of [GenerateThumbnail], from [CreateProcessW] on:
    launch the command line, wait at most 5000 ms, read the exit code,
    close both handles. *)
Definition ExecuteCLI (cmdLine : string) : M HRESULT :=
  let* pi := CreateProcessW cmdLine in
  match pi with
  | None => ret E_FAIL
  | Some hProcess =>
      let* waitResult := WaitForSingleObject hProcess 5000 in
      let* exitCode := GetExitCodeProcess hProcess in
      CloseHandle ;;
      CloseHandle ;;
      if negb (waitResult =? WAIT_OBJECT_0) || negb (exitCode =? 0)
      then ret E_FAIL
      else ret S_OK
  end.

(** [GenerateThumbnail(cx, outPath)]: the status and the content of
    [outPath] afterwards. *)
Definition GenerateThumbnail (this : WireTunerThumbnailProvider) (cx : Z)
    (outPath : string) : M (HRESULT * string) :=
  let* tempPath := GetTempPathW in
  CreateDirectoryW (cacheDir tempPath) ;;
  let* fileInfo := GetFileAttributesExW (m_filePath this) in
  match fileInfo with
  | None => ret (E_FAIL, outPath)
  | Some ft =>
      let modTime := QuadPart (dwLowDateTime ft) (dwHighDateTime ft) in
      let* key := lift_crt (cacheKey (m_filePath this) modTime cx) in
      let outPath := cacheDir tempPath +:+ key in
      let* cached := PathFileExistsW outPath in
      if cached then ret (S_OK, outPath)
      else
        let* cliPath := FindWireTunerCLI in
        if wstring.empty cliPath then ret (E_FAIL, outPath)
        else
          let* cmdLine :=
            lift_crt (swprintf_s 2048
                        (cmdLine_text cliPath (m_filePath this) outPath cx)) in
          let* hr := ExecuteCLI cmdLine in
          ret (hr, outPath)
  end.

(** The raster [GeneratePlaceholder] paints before converting it. *)
Definition placeholder (cx : Z) : Bitmap :=
  let bitmap := mkBitmap (to_INT cx) (to_INT cx) PixelFormat32bppARGB [] in
  let whiteBrush := Color3 255 255 255 in
  let bitmap := FillRectangle bitmap whiteBrush 0 0 (to_INT cx) (to_INT cx) in
  let blueBrush := Color4 255 33 150 243 in
  let margin := to_INT (to_UINT cx / 4) in
  let extent := to_INT (to_UINT (to_UINT cx - to_UINT (to_INT (margin * 2)))) in
  FillEllipse bitmap blueBrush margin margin extent extent.

(** The status both exits compute from [*phbmp]: [S_OK] when it is
    non-null, [E_FAIL] otherwise. *)
Definition status_of (phbmp : HBITMAP) : HRESULT :=
  match phbmp with Some _ => S_OK | None => E_FAIL end.

(** [GeneratePlaceholder(cx, phbmp)]: the status and the content of
    [*phbmp] afterwards. *)
Definition GeneratePlaceholder (this : WireTunerThumbnailProvider) (cx : Z)
    (phbmp : HBITMAP) : M (HRESULT * HBITMAP) :=
  let* phbmp := GetHBITMAP (placeholder cx) (Color3 255 255 255) phbmp in
  ret (status_of phbmp, phbmp).

(** What [GetThumbnail] leaves to its caller: the status, [*phbmp] and
    [*pdwAlpha]. *)
Record Thumbnail := mkThumbnail {
  status : HRESULT;
  hbmp : HBITMAP;
  dwAlpha : Z
}.

Definition GetThumbnail (this : WireTunerThumbnailProvider) (cx : Z)
  : M Thumbnail :=
  let phbmp := NULL in
  let pdwAlpha := WTSAT_ARGB in
  let* (hr, thumbnailPath) := GenerateThumbnail this cx EmptyString in
  if FAILED hr then
    let* (hr, phbmp) := GeneratePlaceholder this cx phbmp in
    ret (mkThumbnail hr phbmp pdwAlpha)
  else
    let* bitmap := Bitmap_FromFile thumbnailPath in
    match bitmap with
    | None =>
        let* (hr, phbmp) := GeneratePlaceholder this cx phbmp in
        ret (mkThumbnail hr phbmp pdwAlpha)
    | Some bitmap =>
        let background := Color4 255 255 255 255 in
        let* phbmp := GetHBITMAP bitmap background phbmp in
        ret (mkThumbnail (status_of phbmp) phbmp pdwAlpha)
    end.

(** ** Vocabulary of the properties *)

(** The child exits within the 5000 ms the provider waits. *)
Definition exits_in_time (child : Child) : bool :=
  match exits_after child with Some d => d <=? 5000 | None => false end.

(** The calls every run of [GenerateThumbnail] starts with. *)
Definition identity_calls (os : OS) (this : WireTunerThumbnailProvider)
  : list Call :=
  [call_GetTempPathW;
   call_CreateDirectoryW (cacheDir (temp_path os));
   call_GetFileAttributesExW (m_filePath this)].

(** The modification time [GenerateThumbnail] reads for a file. *)
Definition modTime_of (file : File) : Z :=
  QuadPart (dwLowDateTime (ftLastWriteTime file))
           (dwHighDateTime (ftLastWriteTime file)).

(** What [GenerateThumbnail] does after a cache miss at [outPath]. *)
Definition render (this : WireTunerThumbnailProvider) (cx : Z)
    (outPath : string) : M (HRESULT * string) :=
  let* cliPath := FindWireTunerCLI in
  if wstring.empty cliPath then ret (E_FAIL, outPath)
  else
    let* cmdLine :=
      lift_crt (swprintf_s 2048
                  (cmdLine_text cliPath (m_filePath this) outPath cx)) in
    let* hr := ExecuteCLI cmdLine in
    ret (hr, outPath).

(** A computation that only reads: from any state with a given file
    system it returns the same value and makes the same calls, and it
    leaves the file system and the clock alone. *)
Definition read_only {A} (m : M A) : Prop :=
  ∀ os σ, ∃ a cs, ∀ τ, fs τ = fs σ → m os τ = Returned a (logged τ cs).

(** [GetHBITMAP]'s effect on a null [*phbmp]. *)
Definition converted (os : OS) (b : Bitmap) (background : Color) : HBITMAP :=
  if bm_valid b && gdi_alloc os b
  then Some (mkGdiBitmap b background)
  else NULL.

(** What [GetThumbnail] hands back when it falls back to the
    placeholder. *)
Definition fallback (os : OS) (cx : Z) : Thumbnail :=
  let phbmp := converted os (placeholder cx) (Color3 255 255 255) in
  mkThumbnail (status_of phbmp) phbmp WTSAT_ARGB.

(** The cache file of a request: the provider's file can be read and
    its key fits the key buffer. *)
Definition cache_file (os : OS) (this : WireTunerThumbnailProvider) (cx : Z)
    (outPath : string) : Prop :=
  ∃ file key,
    files os !! m_filePath this = Some file
    ∧ cacheKey (m_filePath this) (modTime_of file) cx = Some key
    ∧ outPath = cacheDir (temp_path os) +:+ key.

(** The request misses the cache, the renderer is found and the
    command line fits its buffer. *)
Definition renders_with (os : OS) (this : WireTunerThumbnailProvider) (cx : Z)
    (outPath cmdLine : string) : Prop :=
  cache_file os this cx outPath
  ∧ files os !! outPath = None
  ∧ ∃ cliPath,
      result (run FindWireTunerCLI os) = Some cliPath
      ∧ wstring.empty cliPath = false
      ∧ swprintf_s 2048 (cmdLine_text cliPath (m_filePath this) outPath cx)
        = Some cmdLine.

(** The internal failures of a request, read off the environment. *)
Inductive InternalFailure (os : OS) (this : WireTunerThumbnailProvider)
    (cx : Z) : Prop :=
| FileIdentityUnavailable :
    files os !! m_filePath this = None →
    InternalFailure os this cx
| CachedFileUndecodable outPath :
    cache_file os this cx outPath →
    files os !! outPath ≫= image = None →
    is_Some (files os !! outPath) →
    InternalFailure os this cx
| RendererNotFound outPath :
    cache_file os this cx outPath →
    files os !! outPath = None →
    result (run FindWireTunerCLI os) = Some EmptyString →
    InternalFailure os this cx
| LaunchFailed outPath cmdLine :
    renders_with os this cx outPath cmdLine →
    launch os cmdLine = None →
    InternalFailure os this cx
| TimedOut outPath cmdLine child :
    renders_with os this cx outPath cmdLine →
    launch os cmdLine = Some child →
    exits_in_time child = false →
    InternalFailure os this cx
| NonZeroExit outPath cmdLine child :
    renders_with os this cx outPath cmdLine →
    launch os cmdLine = Some child →
    exits_in_time child = true →
    exit_status child ≠ 0 →
    InternalFailure os this cx
| RenderedFileUndecodable outPath cmdLine child :
    renders_with os this cx outPath cmdLine →
    launch os cmdLine = Some child →
    exits_in_time child = true →
    exit_status child = 0 →
    (writes child ∪ files os) !! outPath ≫= image = None →
    InternalFailure os this cx.

(** ** Sample environments *)

Module Samples.

(** A [.wiretuner] document last written at tick 1700000000. *)
Definition draft : File := mkFile (mkFILETIME 1700000000 0) None.

Definition draft_path : string := "C:\Users\tea\draft.wiretuner".

Definition draft_provider : WireTunerThumbnailProvider :=
  Initialize draft_path.

Definition draft_png : string :=
  "C:\Temp\wiretuner-thumbnails\draft.wiretuner-1700000000-256.png".

(** An executable, or any other file that is not an image. *)
Definition binary : File := mkFile (mkFILETIME 0 0) None.

(** A decodable image of [w] by [h] pixels. *)
Definition png (w h : Z) : File :=
  mkFile (mkFILETIME 0 0) (Some (mkBitmap w h PixelFormat32bppARGB [])).

(** A machine without the renderer. *)
Definition bare : OS :=
  mkOS "C:\Temp\" ∅ {[ draft_path := draft ]} (λ _, None) (λ _, true).

(** The same machine when GDI has no room for another bitmap. *)
Definition exhausted : OS :=
  mkOS "C:\Temp\" ∅ {[ draft_path := draft ]} (λ _, None) (λ _, false).

(** The renderer sits in the only directory of [PATH]. *)
Definition on_PATH : OS :=
  mkOS "C:\Temp\" {[ "PATH" := "C:\wt" ]}
       {[ draft_path := draft; "C:\wt\wiretuner.exe" := binary ]}
       (λ _, Some (mkChild (Some 120) 0 {[ draft_png := png 256 256 ]}))
       (λ _, true).

(** The renderer sits in the last of two directories of [PATH]. *)
Definition last_on_PATH : OS :=
  mkOS "C:\Temp\" {[ "PATH" := "C:\tools;C:\wt" ]}
       {[ draft_path := draft; "C:\wt\wiretuner.exe" := binary ]}
       (λ _, Some (mkChild (Some 120) 0 {[ draft_png := png 256 256 ]}))
       (λ _, true).

(** The same directory, followed by a [';']. *)
Definition terminated_PATH : OS :=
  mkOS "C:\Temp\" {[ "PATH" := "C:\tools;C:\wt;" ]}
       {[ draft_path := draft; "C:\wt\wiretuner.exe" := binary ]}
       (λ _, Some (mkChild (Some 120) 0 {[ draft_png := png 256 256 ]}))
       (λ _, true).

(** The renderer is installed; it takes 120 ms and writes a 256 by
    256 image. *)
Definition installed : OS :=
  mkOS "C:\Temp\" ∅
       {[ draft_path := draft;
          "C:\Program Files\WireTuner\wiretuner.exe" := binary ]}
       (λ _, Some (mkChild (Some 120) 0 {[ draft_png := png 256 256 ]}))
       (λ _, true).

(** The cache holds a 128 by 128 image under the key of the 256
    pixel request. *)
Definition small_in_cache : OS :=
  mkOS "C:\Temp\" ∅
       {[ draft_path := draft; draft_png := png 128 128 ]}
       (λ _, None) (λ _, true).

(** A document whose name has 512 characters. *)
Definition long_name : string :=
  foldr String EmptyString (replicate 512 "a"%char).

Definition long_path : string := "C:\" +:+ long_name.

Definition long_named : OS :=
  mkOS "C:\Temp\" ∅ {[ long_path := draft ]} (λ _, None) (λ _, true).

End Samples.

(** ** Vocabulary of the further properties *)

(** The executable [FindWireTunerCLI] looks for in a directory. *)
Definition exe_in (dir : string) : string := dir +:+ "\wiretuner.exe".

(** A [PATH] text: the directories [dirs], each followed by [';'], and
    then [last]. *)
Definition join_PATH (dirs : list string) (last : string) : string :=
  foldr (λ dir rest, dir +:+ ";" +:+ rest) last dirs.

(** The text holds no [c]. *)
Definition free_of (c : ascii) (s : string) : Prop := wstring.find c s = None.

(** The existence tests for [paths], in order. *)
Definition probes (paths : list string) : list Call :=
  call_PathFileExistsW <$> paths.

(** The first of [paths] that exists in a file system, with its index. *)
Definition first_existing (fs : gmap string File) (paths : list string)
  : option (nat * string) :=
  list_find (λ p, is_Some (fs !! p)) paths.

Definition is_CreateProcessW (c : Call) : bool :=
  match c with call_CreateProcessW _ => true | _ => false end.

Definition is_WaitForSingleObject (c : Call) : bool :=
  match c with call_WaitForSingleObject _ => true | _ => false end.

(** The calls that launch, await or release a process. *)
Definition is_process_call (c : Call) : bool :=
  match c with
  | call_CreateProcessW _ | call_WaitForSingleObject _
  | call_GetExitCodeProcess | call_CloseHandle => true
  | _ => false
  end.

(** A computation that returns without a process call, leaving the file
    system and the clock alone. *)
Definition processless {A} (m : M A) : Prop :=
  ∀ os σ, ∃ a cs,
    m os σ = Returned a (logged σ cs)
    ∧ Forall (λ c, is_process_call c = false) cs.

(** What follows [CreateProcessW] among the calls of a launch. *)
Definition after_launch : list Call :=
  [call_WaitForSingleObject 5000; call_GetExitCodeProcess;
   call_CloseHandle; call_CloseHandle].

(** More sample environments. *)
Module Scenes.

(** The cache location of the sample request holds a file that is not
    an image. *)
Definition corrupt_cache : OS :=
  mkOS "C:\Temp\" ∅
       {[ Samples.draft_path := Samples.draft;
          Samples.draft_png := Samples.binary ]}
       (λ _, None) (λ _, true).

End Scenes.

Module Aliases.

(** Two documents with one name and one write time, in two
    directories, and a cache entry under their common key. *)
Definition other_path : string := "D:\backup\draft.wiretuner".

Definition shared_cache : OS :=
  mkOS "C:\Temp\" ∅
       {[ Samples.draft_path := Samples.draft;
          other_path := Samples.draft;
          Samples.draft_png := Samples.png 256 256 ]}
       (λ _, None) (λ _, true).

End Aliases.

(** ** COM plumbing

    Reference counting, interface queries, the class factory and
    [DllGetClassObject].  An object is its members without the
    interlocked counter's atomicity; [delete this] leaves [None]. *)

(** [GUID], compared field by field ([IsEqualGUID]). *)
Record GUID := mkGUID { Data1 : Z; Data2 : Z; Data3 : Z; Data4 : list Z }.

#[global] Instance GUID_eq_dec : EqDecision GUID.
Proof. solve_decision. Defined.

Definition CLSID_WireTunerThumbnailProvider : GUID :=
  mkGUID 0x12345678 0x1234 0x1234
         [0x12; 0x34; 0x12; 0x34; 0x56; 0x78; 0x9A; 0xBC].

(** Interface identifiers of [unknwn.h], [thumbcache.h] and
    [propsys.h]. *)
Definition IID_IUnknown : GUID :=
  mkGUID 0x00000000 0x0000 0x0000
         [0xC0; 0x00; 0x00; 0x00; 0x00; 0x00; 0x00; 0x46].
Definition IID_IClassFactory : GUID :=
  mkGUID 0x00000001 0x0000 0x0000
         [0xC0; 0x00; 0x00; 0x00; 0x00; 0x00; 0x00; 0x46].
Definition IID_IThumbnailProvider : GUID :=
  mkGUID 0xE357FCCD 0xA995 0x4576
         [0xB0; 0x1F; 0x23; 0x46; 0x30; 0x15; 0x4E; 0x96].
Definition IID_IInitializeWithFile : GUID :=
  mkGUID 0xB7D14566 0x0509 0x4CCE
         [0xA7; 0x1F; 0x0A; 0x55; 0x42; 0x33; 0xBD; 0x9B].

(** More [HRESULT] codes of [winerror.h]. *)
Definition E_NOINTERFACE : HRESULT := to_INT 0x80004002.
Definition CLASS_E_NOAGGREGATION : HRESULT := to_INT 0x80040110.
Definition CLASS_E_CLASSNOTAVAILABLE : HRESULT := to_INT 0x80040111.

(** An object of either class: its [LONG m_refCount] and its other
    members. *)
Record Counted (A : Type) := mkCounted { m_refCount : Z; members : A }.
Arguments mkCounted {A} m_refCount members.
Arguments m_refCount {A} c.
Arguments members {A} c.

(** [InterlockedIncrement] and [InterlockedDecrement] on a [LONG]: the
    new value, wrapping around. *)
Definition InterlockedIncrement (v : Z) : Z := to_INT (v + 1).
Definition InterlockedDecrement (v : Z) : Z := to_INT (v - 1).

(** [AddRef], the same in both classes: the [ULONG] it returns and the
    object afterwards. *)
Definition AddRef {A} (this : Counted A) : Z * Counted A :=
  let count := InterlockedIncrement (m_refCount this) in
  (to_UINT count, mkCounted count (members this)).

(** [Release], the same in both classes: the [ULONG] it returns and the
    object afterwards, [None] after [delete this]. *)
Definition Release {A} (this : Counted A) : Z * option (Counted A) :=
  let m_refCount' := InterlockedDecrement (m_refCount this) in
  let count := to_UINT m_refCount' in
  if count =? 0 then (count, None)
  else (count, Some (mkCounted m_refCount' (members this))).

(** What a query leaves in [*ppv]: the interface the object was cast
    to, [None] for a null pointer. *)
Definition PPV := option GUID.

(** [QISearch] of shlwapi over a table of interfaces: a requested
    interface of the table is returned with a new reference;
    [IID_IUnknown] is answered with the first entry of the table;
    anything else sets [*ppv] to null and gives [E_NOINTERFACE]. *)
Definition QISearch {A} (that : Counted A) (qit : list GUID) (riid : GUID)
  : HRESULT * PPV * Counted A :=
  match list_find (λ iid, iid = riid) qit with
  | Some (_, iid) => (S_OK, Some iid, (AddRef that).2)
  | None =>
      match qit with
      | first :: _ =>
          if decide (riid = IID_IUnknown)
          then (S_OK, Some first, (AddRef that).2)
          else (E_NOINTERFACE, None, that)
      | [] => (E_NOINTERFACE, None, that)
      end
  end.

Module Provider.

(** The constructor: one reference, an empty [m_filePath]. *)
Definition new : Counted WireTunerThumbnailProvider :=
  mkCounted 1 (mkProvider EmptyString).

(** The table [qit] of [QueryInterface]. *)
Definition qit : list GUID :=
  [IID_IThumbnailProvider; IID_IInitializeWithFile].

Definition QueryInterface (this : Counted WireTunerThumbnailProvider)
    (riid : GUID) : HRESULT * PPV * Counted WireTunerThumbnailProvider :=
  QISearch this qit riid.

(** [Initialize(pszFilePath, grfMode)] on the object. *)
Definition Initialize (this : Counted WireTunerThumbnailProvider)
    (pszFilePath : string) (grfMode : Z)
  : HRESULT * Counted WireTunerThumbnailProvider :=
  (S_OK, mkCounted (m_refCount this) (mkProvider pszFilePath)).

End Provider.

Module Factory.

(** The constructor: one reference. *)
Definition new : Counted unit := mkCounted 1 tt.

Definition QueryInterface (this : Counted unit) (riid : GUID)
  : HRESULT * PPV * Counted unit :=
  if bool_decide (riid = IID_IUnknown) || bool_decide (riid = IID_IClassFactory)
  then (S_OK, Some IID_IClassFactory, (AddRef this).2)
  else (E_NOINTERFACE, None, this).

(** [CreateInstance(pUnkOuter, riid, ppv)]: the status, [*ppv]
    afterwards ([ppv] is what it held before) and the provider object
    left on the heap, if any. *)
Definition CreateInstance (pUnkOuter : PPV) (riid : GUID) (ppv : PPV)
  : HRESULT * PPV * option (Counted WireTunerThumbnailProvider) :=
  match pUnkOuter with
  | Some _ => (CLASS_E_NOAGGREGATION, ppv, None)
  | None =>
      let provider := Provider.new in
      let '(hr, ppv, provider) := Provider.QueryInterface provider riid in
      let '(_, provider) := Release provider in
      (hr, ppv, provider)
  end.

Definition LockServer (fLock : bool) : HRESULT := S_OK.

End Factory.

(** [DllGetClassObject(rclsid, riid, ppv)]: the status, [*ppv]
    afterwards and the factory object left on the heap, if any. *)
Definition DllGetClassObject (rclsid riid : GUID) (ppv : PPV)
  : HRESULT * PPV * option (Counted unit) :=
  if bool_decide (rclsid = CLSID_WireTunerThumbnailProvider) then
    let factory := Factory.new in
    let '(hr, ppv, factory) := Factory.QueryInterface factory riid in
    let '(_, factory) := Release factory in
    (hr, ppv, factory)
  else (CLASS_E_CLASSNOTAVAILABLE, ppv, None).

(** * Properties *)

Example fmt_u_256 : fmt_u 256 = "256".
Proof. reflexivity. Qed.

Example fmt_llu_epoch : fmt_llu 1700000000 = "1700000000".
Proof. reflexivity. Qed.

Example PathFindFileNameW_draft :
  PathFindFileNameW "C:\Users\tea\draft.wiretuner" = "draft.wiretuner".
Proof. reflexivity. Qed.

(** ** Integers and strings *)

Lemma to_UINT_id z : is_UINT z → to_UINT z = z.
Proof. unfold is_UINT, UINT_MAX, to_UINT. intros. apply Z.mod_small. lia. Qed.

Lemma to_INT_id z : -2 ^ 31 ≤ z ≤ INT_MAX → to_INT z = z.
Proof.
  unfold INT_MAX, to_INT. intros Hz.
  destruct (Z_lt_le_dec z 0) as [Hneg|Hpos].
  - replace (z mod 2 ^ 32) with (z + 2 ^ 32).
    + destruct (Z.ltb_spec (z + 2 ^ 32) (2 ^ 31)); lia.
    + apply (Z.mod_unique_pos _ _ (-1)); lia.
  - rewrite Z.mod_small by lia.
    destruct (Z.ltb_spec z (2 ^ 31)); lia.
Qed.

Lemma fmt_u_pretty n : is_UINT n → fmt_u n = pretty (Z.to_N n).
Proof. intros Hn. unfold fmt_u. fold (to_UINT n). by rewrite to_UINT_id. Qed.

Lemma fmt_llu_pretty t : is_ULONGLONG t → fmt_llu t = pretty (Z.to_N t).
Proof.
  unfold is_ULONGLONG, fmt_llu. intros Ht. by rewrite Z.mod_small.
Qed.

Lemma fmt_u_inj n n' : is_UINT n → is_UINT n' → fmt_u n = fmt_u n' → n = n'.
Proof.
  intros Hn Hn'. rewrite !fmt_u_pretty by done. intros Heq.
  apply (inj pretty) in Heq. unfold is_UINT in *. lia.
Qed.

Lemma fmt_llu_inj t t' :
  is_ULONGLONG t → is_ULONGLONG t' → fmt_llu t = fmt_llu t' → t = t'.
Proof.
  intros Ht Ht'. rewrite !fmt_llu_pretty by done. intros Heq.
  apply (inj pretty) in Heq. unfold is_ULONGLONG in *. lia.
Qed.

Lemma QuadPart_range lo hi : is_ULONGLONG (QuadPart lo hi).
Proof.
  unfold is_ULONGLONG, QuadPart, to_UINT.
  pose proof (Z.mod_pos_bound lo (2 ^ 32) ltac:(lia)).
  pose proof (Z.mod_pos_bound hi (2 ^ 32) ltac:(lia)).
  nia.
Qed.

Lemma length_app (s t : string) :
  String.length (s +:+ t) = (String.length s + String.length t)%nat.
Proof. induction s as [|a s IH]; simpl; [done|]. by rewrite IH. Qed.

Lemma app_inv_tail (s s' t : string) : s +:+ t = s' +:+ t → s = s'.
Proof.
  revert s'. induction s as [|a s IH]; intros [|a' s'] Heq.
  - done.
  - pose proof (f_equal String.length Heq) as Hlen.
    rewrite !length_app in Hlen. simpl in Hlen. lia.
  - pose proof (f_equal String.length Heq) as Hlen.
    rewrite !length_app in Hlen. simpl in Hlen. lia.
  - simpl in Heq. injection Heq as -> Heq. f_equal. by apply IH.
Qed.

Lemma swprintf_s_Some capacity text s :
  swprintf_s capacity text = Some s ↔
  s = text ∧ (String.length text < capacity)%nat.
Proof.
  unfold swprintf_s. case_decide as Hfit; split.
  - by intros [= <-].
  - by intros [-> _].
  - done.
  - by intros [_ ?].
Qed.

Lemma swprintf_s_fits capacity text :
  (String.length text < capacity)%nat → swprintf_s capacity text = Some text.
Proof. intros. by apply swprintf_s_Some. Qed.

(** ** The cache key *)





(** ** Running the monad *)

Lemma logged_logged σ cs cs' : logged (logged σ cs) cs' = logged σ (cs ++ cs').
Proof. unfold logged. simpl. by rewrite <- app_assoc. Qed.

Lemma logged_nil σ : logged σ [] = σ.
Proof. destruct σ. unfold logged. simpl. by rewrite app_nil_r. Qed.

Lemma fs_logged σ cs : fs (logged σ cs) = fs σ.
Proof. reflexivity. Qed.

Lemma S_OK_succeeds : FAILED S_OK = false ∧ SUCCEEDED S_OK = true.
Proof. split; reflexivity. Qed.

Lemma E_FAIL_fails : FAILED E_FAIL = true ∧ SUCCEEDED E_FAIL = false.
Proof. split; reflexivity. Qed.

Lemma status_of_succeeded phbmp :
  SUCCEEDED (status_of phbmp) = true ↔ phbmp ≠ NULL.
Proof. destruct phbmp; simpl; split; (done || by intros []). Qed.

(** Unfold the monad and the calls, leaving the environment's answers. *)
Ltac run_calls :=
  cbv beta iota zeta delta
    [bind ret lift_crt syscall GetTempPathW CreateDirectoryW
     GetFileAttributesExW PathFileExistsW GetEnvironmentVariableW
     CreateProcessW WaitForSingleObject GetExitCodeProcess CloseHandle
     Bitmap_FromFile GetHBITMAP];
  rewrite ?fs_logged, ?logged_logged; cbn [app].

(** ** Launching the renderer *)

Lemma ExecuteCLI_not_launched os σ cmdLine :
  launch os cmdLine = None →
  ExecuteCLI cmdLine os σ
  = Returned E_FAIL (logged σ [call_CreateProcessW cmdLine]).
Proof. intros Hl. unfold ExecuteCLI. run_calls. by rewrite Hl. Qed.

Lemma exited_by_deadline child now :
  exited_by (mkProcess child now) (now + 5000) = exits_in_time child.
Proof.
  unfold exited_by, exits_in_time. simpl.
  destruct (exits_after child) as [d|]; [|done].
  destruct (Z.leb_spec (now + d) (now + 5000)), (Z.leb_spec d 5000); lia.
Qed.

Lemma exited_by_after_wait child now :
  exits_in_time child = true →
  exited_by (mkProcess child now)
            (Z.max now (now + default 0 (exits_after child))) = true.
Proof.
  unfold exited_by, exits_in_time. simpl.
  destruct (exits_after child) as [d|]; [|done]. intros _. simpl.
  apply Z.leb_le. lia.
Qed.

Lemma ExecuteCLI_launched os σ cmdLine child :
  launch os cmdLine = Some child →
  ∃ σ',
    ExecuteCLI cmdLine os σ
    = Returned (if exits_in_time child && (exit_status child =? 0)
                then S_OK else E_FAIL) σ'
    ∧ trace σ' = trace σ ++ [call_CreateProcessW cmdLine;
                             call_WaitForSingleObject 5000;
                             call_GetExitCodeProcess;
                             call_CloseHandle; call_CloseHandle]
    ∧ fs σ' = if exits_in_time child then writes child ∪ fs σ else fs σ.
Proof.
  intros Hl. unfold ExecuteCLI. run_calls. rewrite Hl.
  cbn [fmap option_fmap option_map]. cbv beta iota.
  rewrite exited_by_deadline.
  destruct (exits_in_time child) eqn:Hin;
    cbn [proc_child proc_started clock fs trace logged].
  - rewrite exited_by_after_wait by done.
    destruct (exit_status child =? 0); simpl;
      (eexists; split; [reflexivity|]; simpl;
       by rewrite <- !app_assoc).
  - simpl. eexists; split; [reflexivity|]. simpl.
    by rewrite <- !app_assoc.
Qed.

(** C7. The launch block reports [S_OK] exactly when the child was
    launched, exited within the 5000 ms wait and exited with status 0;
    it always returns, with [S_OK] or [E_FAIL]; when the launch fails
    it returns [E_FAIL] after the [CreateProcessW] call alone, without
    waiting; when the launch succeeds it waits once, for 5000 ms. *)
Theorem ExecuteCLI_outcome os σ cmdLine :
  (∃ hr σ', ExecuteCLI cmdLine os σ = Returned hr σ'
            ∧ (hr = S_OK ∨ hr = E_FAIL))
  ∧ (result (ExecuteCLI cmdLine os σ) = Some S_OK ↔
     ∃ child d, launch os cmdLine = Some child
                ∧ exits_after child = Some d ∧ d ≤ 5000
                ∧ exit_status child = 0)
  ∧ (launch os cmdLine = None →
     ExecuteCLI cmdLine os σ
     = Returned E_FAIL (logged σ [call_CreateProcessW cmdLine]))
  ∧ (∀ child, launch os cmdLine = Some child →
     calls (ExecuteCLI cmdLine os σ)
     = trace σ ++ [call_CreateProcessW cmdLine;
                   call_WaitForSingleObject 5000;
                   call_GetExitCodeProcess;
                   call_CloseHandle; call_CloseHandle]).
Proof.
  destruct (launch os cmdLine) as [child|] eqn:Hl.
  - destruct (ExecuteCLI_launched os σ cmdLine child Hl)
      as (σ' & Hrun & Htrace & _).
    rewrite Hrun. repeat split.
    + eexists _, σ'. split; [done|].
      destruct (_ && _); [by left | by right].
    + simpl. intros Hok. exists child.
      unfold exits_in_time in Hok.
      destruct (exits_after child) as [d|]; [|discriminate Hok].
      exists d. destruct (Z.leb_spec d 5000); [|discriminate Hok].
      destruct (Z.eqb_spec (exit_status child) 0); [done|discriminate Hok].
    + intros (child' & d & [= <-] & Hd & Hle & Hz). simpl.
      unfold exits_in_time. rewrite Hd, Hz.
      by destruct (Z.leb_spec d 5000); [|lia].
    + done.
    + by intros child' [= <-].
  - rewrite (ExecuteCLI_not_launched os σ cmdLine Hl). repeat split.
    + eexists _, _. split; [done | by right].
    + intros [=].
    + by intros (child & d & [=] & _).
    + done.
Qed.

(** ** Deriving the cache location *)

Lemma GenerateThumbnail_unreadable os this cx out σ :
  fs σ !! m_filePath this = None →
  GenerateThumbnail this cx out os σ
  = Returned (E_FAIL, out) (logged σ (identity_calls os this)).
Proof.
  intros Hnone. unfold GenerateThumbnail. run_calls. rewrite Hnone. simpl.
  by rewrite ?logged_logged.
Qed.

Lemma GenerateThumbnail_key_overflow os this cx out σ file :
  fs σ !! m_filePath this = Some file →
  cacheKey (m_filePath this) (modTime_of file) cx = None →
  GenerateThumbnail this cx out os σ
  = InvalidParameter (logged σ (identity_calls os this)).
Proof.
  intros Hfile Hkey. unfold GenerateThumbnail. run_calls. rewrite Hfile.
  cbn [fmap option_fmap option_map ftLastWriteTime]. cbv beta iota.
  fold (modTime_of file). rewrite Hkey.
  by rewrite ?logged_logged.
Qed.

Lemma GenerateThumbnail_cached os this cx out σ file key :
  fs σ !! m_filePath this = Some file →
  cacheKey (m_filePath this) (modTime_of file) cx = Some key →
  is_Some (fs σ !! (cacheDir (temp_path os) +:+ key)) →
  GenerateThumbnail this cx out os σ
  = Returned (S_OK, cacheDir (temp_path os) +:+ key)
      (logged σ (identity_calls os this
                 ++ [call_PathFileExistsW (cacheDir (temp_path os) +:+ key)])).
Proof.
  intros Hfile Hkey Hhit. unfold GenerateThumbnail. run_calls. rewrite Hfile.
  cbn [fmap option_fmap option_map ftLastWriteTime]. cbv beta iota.
  fold (modTime_of file). rewrite Hkey. run_calls.
  rewrite bool_decide_eq_true_2 by done.
  by rewrite ?logged_logged.
Qed.

Lemma GenerateThumbnail_miss os this cx out σ file key :
  fs σ !! m_filePath this = Some file →
  cacheKey (m_filePath this) (modTime_of file) cx = Some key →
  fs σ !! (cacheDir (temp_path os) +:+ key) = None →
  GenerateThumbnail this cx out os σ
  = render this cx (cacheDir (temp_path os) +:+ key) os
      (logged σ (identity_calls os this
                 ++ [call_PathFileExistsW (cacheDir (temp_path os) +:+ key)])).
Proof.
  intros Hfile Hkey Hmiss. unfold GenerateThumbnail. run_calls. rewrite Hfile.
  cbn [fmap option_fmap option_map ftLastWriteTime]. cbv beta iota.
  fold (modTime_of file). rewrite Hkey. run_calls.
  rewrite bool_decide_eq_false_2 by (rewrite Hmiss; by intros [? [=]]).
  by rewrite ?logged_logged.
Qed.

Lemma render_keeps_outPath this cx outPath os σ hr out σ' :
  render this cx outPath os σ = Returned (hr, out) σ' → out = outPath.
Proof.
  unfold render. run_calls.
  destruct (FindWireTunerCLI os σ) as [cliPath σ1|σ1]; [|done].
  destruct (wstring.empty cliPath); [by intros [= _ <- _]|].
  destruct (swprintf_s _ _) as [cmdLine|]; [|done].
  destruct (ExecuteCLI cmdLine os σ1) as [hr' σ2|σ2]; [|done].
  by intros [= _ <- _].
Qed.

(** ** Locating the renderer *)

Lemma read_only_ret {A} (a : A) : read_only (ret a).
Proof. intros os σ. exists a, []. intros τ _. by rewrite logged_nil. Qed.

Lemma read_only_bind {A B} (m : M A) (f : A → M B) :
  read_only m → (∀ a, read_only (f a)) → read_only (bind m f).
Proof.
  intros Hm Hf os σ.
  destruct (Hm os σ) as (a & cs & Ha).
  destruct (Hf a os σ) as (b & cs' & Hb).
  exists b, (cs ++ cs'). intros τ Hτ. unfold bind.
  rewrite (Ha τ Hτ), (Hb (logged τ cs)) by done.
  by rewrite logged_logged.
Qed.

Lemma read_only_PathFileExistsW path : read_only (PathFileExistsW path).
Proof.
  intros os σ. eexists _, _. intros τ Hτ.
  unfold PathFileExistsW, syscall. by rewrite Hτ.
Qed.

Lemma read_only_GetEnvironmentVariableW name :
  read_only (GetEnvironmentVariableW name).
Proof.
  intros os σ. unfold GetEnvironmentVariableW, syscall.
  destruct (environment os !! name); eexists _, _; intros τ Hτ; reflexivity.
Qed.

Lemma read_only_search_installed paths : read_only (search_installed paths).
Proof.
  induction paths as [|p paths IH]; simpl.
  - apply read_only_ret.
  - apply read_only_bind; [apply read_only_PathFileExistsW|].
    intros [|]; [apply read_only_ret | apply IH].
Qed.

Lemma read_only_search_PATH path : read_only (search_PATH path).
Proof.
  funelim (search_PATH path).
  - apply read_only_bind; [apply read_only_PathFileExistsW|].
    intros [|]; [apply read_only_ret|].
    intros os σ. exact (H false os σ os σ).
  - apply read_only_ret.
Qed.

(** One turn of the [while] loop. *)
Lemma search_PATH_turn path :
  search_PATH path
  = match wstring.find ";" path with
    | Some pos =>
        let exePath := wstring.substr0 pos path +:+ "\wiretuner.exe" in
        let* found := PathFileExistsW exePath in
        if found then ret exePath
        else search_PATH (wstring.erase0 (S pos) path)
    | None => ret EmptyString
    end.
Proof.
  funelim (search_PATH path).
  - by rewrite Hpos.
  - match goal with Hnone : wstring.find _ _ = None |- _ => by rewrite Hnone end.
Qed.

Lemma read_only_FindWireTunerCLI : read_only FindWireTunerCLI.
Proof.
  unfold FindWireTunerCLI.
  apply read_only_bind; [apply read_only_search_installed|].
  intros [p|]; [apply read_only_ret|].
  apply read_only_bind; [apply read_only_GetEnvironmentVariableW|].
  intros [pathLen pathBuf].
  destruct (0 <? pathLen); [apply read_only_search_PATH | apply read_only_ret].
Qed.

(** From any state that still has the initial file system the search
    returns what [run] returns, after the same calls. *)
Lemma FindWireTunerCLI_anywhere os σ :
  fs σ = files os →
  ∃ cliPath cs,
    run FindWireTunerCLI os = Returned cliPath (logged (boot os) cs)
    ∧ FindWireTunerCLI os σ = Returned cliPath (logged σ cs).
Proof.
  intros Hfs.
  destruct (read_only_FindWireTunerCLI os (boot os)) as (cliPath & cs & H).
  exists cliPath, cs. split; [by apply H | by apply H].
Qed.

(** C3. With [PATH] set to the single directory [C:\wt], which holds
    [wiretuner.exe], and no installed copy, [FindWireTunerCLI] returns
    the empty string: it asks for both installation paths, reads
    [PATH], and never asks for [C:\wt\wiretuner.exe]. *)
Theorem FindWireTunerCLI_skips_last_PATH_directory :
  run FindWireTunerCLI Samples.on_PATH
  = Returned EmptyString
      (logged (boot Samples.on_PATH)
         [call_PathFileExistsW "C:\Program Files\WireTuner\wiretuner.exe";
          call_PathFileExistsW "C:\Program Files (x86)\WireTuner\wiretuner.exe";
          call_GetEnvironmentVariableW "PATH"])
  ∧ Samples.on_PATH.(environment) !! "PATH" = Some "C:\wt"
  ∧ is_Some (Samples.on_PATH.(files) !! "C:\wt\wiretuner.exe").
Proof.
  split; [|split].
  - vm_compute. reflexivity.
  - reflexivity.
  - eexists. reflexivity.
Qed.

(** The last of several directories is skipped in the same way. *)
Lemma FindWireTunerCLI_skips_after_last_separator :
  calls (run FindWireTunerCLI Samples.last_on_PATH)
  = [call_PathFileExistsW "C:\Program Files\WireTuner\wiretuner.exe";
     call_PathFileExistsW "C:\Program Files (x86)\WireTuner\wiretuner.exe";
     call_GetEnvironmentVariableW "PATH";
     call_PathFileExistsW "C:\tools\wiretuner.exe"]
  ∧ result (run FindWireTunerCLI Samples.last_on_PATH) = Some EmptyString.
Proof. split; vm_compute; reflexivity. Qed.

(** A directory followed by [';'] is found. *)
Example FindWireTunerCLI_finds_terminated_directory :
  result (run FindWireTunerCLI Samples.terminated_PATH)
  = Some "C:\wt\wiretuner.exe".
Proof. vm_compute. reflexivity. Qed.

(** In general the loop makes no call at all for a [PATH] without
    [';']. *)
Lemma search_PATH_without_separator path os σ :
  wstring.find ";" path = None →
  search_PATH path os σ = Returned EmptyString σ.
Proof. intros Hnone. by rewrite search_PATH_turn, Hnone. Qed.

(** ** The placeholder *)

Lemma GeneratePlaceholder_run this cx os σ :
  GeneratePlaceholder this cx NULL os σ
  = Returned (status_of (converted os (placeholder cx) (Color3 255 255 255)),
              converted os (placeholder cx) (Color3 255 255 255)) σ.
Proof. reflexivity. Qed.

Lemma placeholder_extent cx :
  bm_width (placeholder cx) = to_INT cx
  ∧ bm_height (placeholder cx) = to_INT cx.
Proof. split; reflexivity. Qed.

Lemma to_INT_positive cx :
  is_UINT cx → 0 < to_INT cx ↔ 1 ≤ cx ≤ INT_MAX.
Proof.
  unfold is_UINT, UINT_MAX, INT_MAX, to_INT. intros Hcx.
  rewrite Z.mod_small by lia.
  destruct (Z.ltb_spec cx (2 ^ 31)); lia.
Qed.

Lemma placeholder_valid cx :
  is_UINT cx → bm_valid (placeholder cx) = true ↔ 1 ≤ cx ≤ INT_MAX.
Proof.
  intros Hcx. unfold bm_valid.
  destruct (placeholder_extent cx) as [-> ->].
  rewrite andb_diag, Z.ltb_lt. by apply to_INT_positive.
Qed.

(** ** [GetThumbnail], by the outcome of [GenerateThumbnail] *)

Lemma GetThumbnail_run this cx os σ :
  GetThumbnail this cx os σ
  = match GenerateThumbnail this cx EmptyString os σ with
    | Returned (hr, thumbnailPath) σ1 =>
        if FAILED hr then Returned (fallback os cx) σ1
        else
          let σ2 := logged σ1 [call_Bitmap_FromFile thumbnailPath] in
          match fs σ1 !! thumbnailPath ≫= image with
          | None => Returned (fallback os cx) σ2
          | Some bitmap =>
              let phbmp := converted os bitmap (Color4 255 255 255 255) in
              Returned (mkThumbnail (status_of phbmp) phbmp WTSAT_ARGB) σ2
          end
    | InvalidParameter σ1 => InvalidParameter σ1
    end.
Proof.
  unfold GetThumbnail. unfold bind at 1.
  destruct (GenerateThumbnail this cx EmptyString os σ) as [[hr path] σ1|σ1];
    [|done].
  destruct (FAILED hr); [done|].
  unfold bind at 1. unfold Bitmap_FromFile, syscall.
  by destruct (fs σ1 !! path ≫= image).
Qed.

(** C9. Whenever [GetThumbnail] returns, on whichever path, its status
    is a success code exactly when the handle it leaves in [*phbmp] is
    not null; the status is [S_OK] or [E_FAIL]. *)
Theorem GetThumbnail_status_matches_handle this cx os σ t σ' :
  GetThumbnail this cx os σ = Returned t σ' →
  (SUCCEEDED (status t) = true ↔ hbmp t ≠ NULL)
  ∧ (FAILED (status t) = true ↔ hbmp t = NULL)
  ∧ status t = status_of (hbmp t).
Proof.
  rewrite GetThumbnail_run. intros Hrun.
  assert (status t = status_of (hbmp t)) as Hst.
  { destruct (GenerateThumbnail _ _ _ _ _) as [[hr path] σ1|σ1]; [|done].
    destruct (FAILED hr); [by injection Hrun as <- _|].
    destruct (fs σ1 !! path ≫= image); by injection Hrun as <- _. }
  rewrite Hst. destruct (hbmp t); simpl; repeat split; done.
Qed.

Lemma GetThumbnail_status_matches_handle_witness :
  (SUCCEEDED (status (fallback Samples.bare 256)) = true
   ↔ hbmp (fallback Samples.bare 256) ≠ NULL)
  ∧ (FAILED (status (fallback Samples.bare 256)) = true
     ↔ hbmp (fallback Samples.bare 256) = NULL)
  ∧ status (fallback Samples.bare 256)
    = status_of (hbmp (fallback Samples.bare 256)).
Proof.
  apply (GetThumbnail_status_matches_handle
           Samples.draft_provider 256 Samples.bare (boot Samples.bare) _
           (final (run (GetThumbnail Samples.draft_provider 256)
                       Samples.bare))).
  vm_compute. reflexivity.
Defined.

(** ** Cache hits *)

(** C6. When the provider's file can be read, its key fits the key
    buffer and a file exists at the cache location, a run of
    [GetThumbnail] makes exactly five calls: the three that read the
    file's identity, the existence test of the cache location and the
    decoding of the file there.  It makes no existence test for a
    renderer path, does not read [PATH], and launches and waits for no
    process. *)
Theorem cache_hit_skips_renderer os this cx outPath :
  cache_file os this cx outPath →
  is_Some (files os !! outPath) →
  calls (run (GetThumbnail this cx) os)
  = [call_GetTempPathW;
     call_CreateDirectoryW (cacheDir (temp_path os));
     call_GetFileAttributesExW (m_filePath this);
     call_PathFileExistsW outPath;
     call_Bitmap_FromFile outPath]
  ∧ ∀ c, c ∈ calls (run (GetThumbnail this cx) os) →
         (∀ path, c = call_PathFileExistsW path → path = outPath)
         ∧ (∀ name, c ≠ call_GetEnvironmentVariableW name)
         ∧ (∀ cmdLine, c ≠ call_CreateProcessW cmdLine)
         ∧ (∀ ms, c ≠ call_WaitForSingleObject ms)
         ∧ c ≠ call_GetExitCodeProcess.
Proof.
  intros (file & key & Hfile & Hkey & ->) Hhit.
  assert (calls (run (GetThumbnail this cx) os)
          = identity_calls os this
            ++ [call_PathFileExistsW (cacheDir (temp_path os) +:+ key);
                call_Bitmap_FromFile (cacheDir (temp_path os) +:+ key)])
    as Hcalls.
  { unfold run. rewrite GetThumbnail_run.
    rewrite (GenerateThumbnail_cached os this cx _ (boot os) file key)
      by done.
    cbn [FAILED S_OK Z.ltb Z.compare].
    by destruct (_ ≫= image). }
  split; [done|]. rewrite Hcalls. intros c Hc.
  unfold identity_calls in Hc. cbn [app] in Hc.
  repeat (apply elem_of_cons in Hc as [->|Hc]);
    [..|by apply elem_of_nil in Hc];
    repeat split; try done; by intros ? [= <-].
Qed.

Lemma cache_hit_skips_renderer_witness :
  calls (run (GetThumbnail Samples.draft_provider 256) Samples.small_in_cache)
  = [call_GetTempPathW;
     call_CreateDirectoryW "C:\Temp\wiretuner-thumbnails\";
     call_GetFileAttributesExW Samples.draft_path;
     call_PathFileExistsW Samples.draft_png;
     call_Bitmap_FromFile Samples.draft_png].
Proof.
  refine (proj1 (cache_hit_skips_renderer Samples.small_in_cache
                   Samples.draft_provider 256 Samples.draft_png _ _)).
  - exists Samples.draft, "draft.wiretuner-1700000000-256.png".
    repeat split; reflexivity.
  - eexists. reflexivity.
Defined.

(** ** Cache misses *)

Lemma render_run os this cx outPath σ cliPath :
  fs σ = files os →
  result (run FindWireTunerCLI os) = Some cliPath →
  ∃ σ1, fs σ1 = files os ∧
    render this cx outPath os σ
    = if wstring.empty cliPath then Returned (E_FAIL, outPath) σ1
      else match swprintf_s 2048
                   (cmdLine_text cliPath (m_filePath this) outPath cx) with
           | Some cmdLine =>
               match ExecuteCLI cmdLine os σ1 with
               | Returned hr σ2 => Returned (hr, outPath) σ2
               | InvalidParameter σ2 => InvalidParameter σ2
               end
           | None => InvalidParameter σ1
           end.
Proof.
  intros Hfs Hcli.
  destruct (FindWireTunerCLI_anywhere os σ Hfs) as (cli & cs & Hrun & Hσ).
  rewrite Hrun in Hcli. injection Hcli as ->.
  exists (logged σ cs). split; [done|].
  unfold render. unfold bind at 1. rewrite Hσ.
  destruct (wstring.empty cliPath); [done|].
  unfold bind at 1. unfold lift_crt.
  destruct (swprintf_s _ _) as [cmdLine|]; [|done].
  unfold bind. by destruct (ExecuteCLI cmdLine os (logged σ cs)).
Qed.

Lemma GenerateThumbnail_not_found os this cx outPath :
  cache_file os this cx outPath →
  files os !! outPath = None →
  result (run FindWireTunerCLI os) = Some EmptyString →
  ∃ σ1, run (GenerateThumbnail this cx EmptyString) os
        = Returned (E_FAIL, outPath) σ1.
Proof.
  intros (file & key & Hfile & Hkey & ->) Hmiss Hcli. unfold run.
  rewrite (GenerateThumbnail_miss os this cx _ (boot os) file key) by done.
  edestruct render_run as (σ1 & _ & ->); [|exact Hcli|]; [done|].
  by exists σ1.
Qed.

Lemma GenerateThumbnail_renders os this cx outPath cmdLine :
  renders_with os this cx outPath cmdLine →
  ∃ σ1, fs σ1 = files os ∧
    run (GenerateThumbnail this cx EmptyString) os
    = match ExecuteCLI cmdLine os σ1 with
      | Returned hr σ2 => Returned (hr, outPath) σ2
      | InvalidParameter σ2 => InvalidParameter σ2
      end.
Proof.
  intros ((file & key & Hfile & Hkey & ->) & Hmiss
          & cliPath & Hcli & Hne & Hcmd).
  unfold run.
  rewrite (GenerateThumbnail_miss os this cx _ (boot os) file key) by done.
  edestruct render_run as (σ1 & Hfs & ->); [|exact Hcli|]; [done|].
  rewrite Hne, Hcmd. by exists σ1.
Qed.

(** The outcome of [GenerateThumbnail] once the renderer was launched. *)
Lemma GenerateThumbnail_launched os this cx outPath cmdLine child :
  renders_with os this cx outPath cmdLine →
  launch os cmdLine = Some child →
  ∃ σ2,
    run (GenerateThumbnail this cx EmptyString) os
    = Returned (if exits_in_time child && (exit_status child =? 0)
                then S_OK else E_FAIL, outPath) σ2
    ∧ fs σ2 = if exits_in_time child then writes child ∪ files os
              else files os.
Proof.
  intros Hr Hl.
  destruct (GenerateThumbnail_renders _ _ _ _ _ Hr) as (σ1 & Hfs & ->).
  destruct (ExecuteCLI_launched os σ1 cmdLine child Hl)
    as (σ2 & -> & _ & Hfs2).
  exists σ2. split; [done|]. by rewrite Hfs2, Hfs.
Qed.

(** ** Falling back *)

Lemma fallback_value os cx :
  fallback os cx
  = if bm_valid (placeholder cx) && gdi_alloc os (placeholder cx)
    then mkThumbnail S_OK
           (Some (mkGdiBitmap (placeholder cx) (Color3 255 255 255)))
           WTSAT_ARGB
    else mkThumbnail E_FAIL NULL WTSAT_ARGB.
Proof. unfold fallback, converted. by destruct (_ && _). Qed.

Lemma GetThumbnail_falls_back os this cx :
  InternalFailure os this cx →
  ∃ σ, run (GetThumbnail this cx) os = Returned (fallback os cx) σ.
Proof.
  intros Hfail. unfold run. rewrite GetThumbnail_run.
  destruct Hfail as
    [ Hnone
    | outPath Hcache Hundec Hhit
    | outPath Hcache Hmiss Hcli
    | outPath cmdLine Hr Hl
    | outPath cmdLine child Hr Hl Hlate
    | outPath cmdLine child Hr Hl Hin Hcode
    | outPath cmdLine child Hr Hl Hin Hcode Hundec ].
  - rewrite GenerateThumbnail_unreadable by done. by eexists.
  - destruct Hcache as (file & key & Hfile & Hkey & ->).
    rewrite (GenerateThumbnail_cached os this cx _ (boot os) file key)
      by done.
    cbn [FAILED S_OK Z.ltb Z.compare fs logged boot].
    rewrite Hundec. by eexists.
  - destruct (GenerateThumbnail_not_found _ _ _ _ Hcache Hmiss Hcli)
      as (σ1 & Hrun).
    unfold run in Hrun. rewrite Hrun. by eexists.
  - destruct (GenerateThumbnail_renders _ _ _ _ _ Hr) as (σ1 & _ & Hrun).
    unfold run in Hrun. rewrite Hrun, ExecuteCLI_not_launched by done.
    by eexists.
  - destruct (GenerateThumbnail_launched _ _ _ _ _ _ Hr Hl)
      as (σ2 & Hrun & _).
    unfold run in Hrun. rewrite Hrun, Hlate. by eexists.
  - destruct (GenerateThumbnail_launched _ _ _ _ _ _ Hr Hl)
      as (σ2 & Hrun & _).
    unfold run in Hrun. rewrite Hrun, Hin.
    destruct (Z.eqb_spec (exit_status child) 0); [done|]. by eexists.
  - destruct (GenerateThumbnail_launched _ _ _ _ _ _ Hr Hl)
      as (σ2 & Hrun & Hfs).
    unfold run in Hrun. rewrite Hrun, Hin, Hcode.
    cbn [andb Z.eqb FAILED S_OK Z.ltb Z.compare].
    rewrite Hin in Hfs. rewrite Hfs, Hundec. by eexists.
Qed.

(** C1. For a request of size [cx] that meets one of the internal
    failures of [InternalFailure] (file identity unreadable,
    undecodable cache file, renderer not found, launch failure,
    timeout, nonzero exit, undecodable rendered file), [GetThumbnail]
    returns what [GeneratePlaceholder] makes of [cx]: when
    [1 ≤ cx ≤ INT_MAX] and GDI can allocate the bitmap, [S_OK] with the
    placeholder, which is [cx] by [cx] pixels; otherwise [E_FAIL] with
    a null handle.  Every failure but the unreadable file identity is
    one of a request whose key fits [cacheKey[512]], and the four that
    follow the search for the renderer are of a request whose command
    line fits [cmdLine[2048]]: these conditions are part of
    [cache_file] and [renders_with]. *)
Theorem fallback_on_internal_failure os this cx :
  is_UINT cx →
  InternalFailure os this cx →
  ∃ t σ,
    run (GetThumbnail this cx) os = Returned t σ
    ∧ dwAlpha t = WTSAT_ARGB
    ∧ (1 ≤ cx ≤ INT_MAX → gdi_alloc os (placeholder cx) = true →
       status t = S_OK
       ∧ hbmp t = Some (mkGdiBitmap (placeholder cx) (Color3 255 255 255))
       ∧ bm_width (placeholder cx) = cx
       ∧ bm_height (placeholder cx) = cx)
    ∧ (¬ 1 ≤ cx ≤ INT_MAX ∨ gdi_alloc os (placeholder cx) = false →
       status t = E_FAIL ∧ hbmp t = NULL).
Proof.
  intros Hcx Hfail.
  destruct (GetThumbnail_falls_back os this cx Hfail) as (σ & Hrun).
  exists (fallback os cx), σ. split; [done|]. split; [done|].
  rewrite fallback_value. pose proof (placeholder_valid cx Hcx) as Hvalid.
  split.
  - intros Hrange Halloc. apply Hvalid in Hrange as Hv.
    rewrite Hv, Halloc. cbn [andb status hbmp].
    destruct (placeholder_extent cx) as [Hw Hh].
    assert (to_INT cx = cx) as Hint
      by (apply to_INT_id; unfold INT_MAX in *; lia).
    repeat split; congruence.
  - intros [Hrange|Halloc].
    + destruct (bm_valid (placeholder cx)); [|done].
      by destruct Hrange; apply Hvalid.
    + rewrite Halloc, andb_false_r. done.
Qed.

Lemma fallback_on_internal_failure_witness :
  ∃ t σ,
    run (GetThumbnail Samples.draft_provider 256) Samples.bare = Returned t σ
    ∧ status t = S_OK
    ∧ hbmp t = Some (mkGdiBitmap (placeholder 256) (Color3 255 255 255))
    ∧ bm_width (placeholder 256) = 256
    ∧ bm_height (placeholder 256) = 256.
Proof.
  destruct (fallback_on_internal_failure Samples.bare
              Samples.draft_provider 256) as (t & σ & Hrun & _ & Hok & _).
  - unfold is_UINT, UINT_MAX. lia.
  - apply (RendererNotFound _ _ _ Samples.draft_png).
    + exists Samples.draft, "draft.wiretuner-1700000000-256.png".
      repeat split; reflexivity.
    + reflexivity.
    + reflexivity.
  - exists t, σ. split; [exact Hrun|].
    apply Hok; [unfold INT_MAX; lia | reflexivity].
Defined.

(** The claim as C1 states it fails: with the renderer missing and GDI
    unable to allocate the placeholder bitmap, a request of size 256
    gets [E_FAIL] and a null handle. *)
Lemma internal_failure_can_surface :
  ¬ (∀ os this cx,
       is_UINT cx →
       InternalFailure os this cx →
       ∃ t σ h,
         run (GetThumbnail this cx) os = Returned t σ
         ∧ SUCCEEDED (status t) = true
         ∧ hbmp t = Some h ∧ hb_width h = cx ∧ hb_height h = cx).
Proof.
  intros Hclaim.
  destruct (Hclaim Samples.exhausted Samples.draft_provider 256)
    as (t & σ & h & Hrun & Hok & _).
  - unfold is_UINT, UINT_MAX. lia.
  - apply (RendererNotFound _ _ _ Samples.draft_png).
    + exists Samples.draft, "draft.wiretuner-1700000000-256.png".
      repeat split; reflexivity.
    + reflexivity.
    + reflexivity.
  - vm_compute in Hrun. injection Hrun as <- _. discriminate Hok.
Qed.

(** Without the condition on the key the run does not return: the
    document with the 512-character name can be read and no renderer
    is found, yet the run ends in the invalid-parameter handler. *)
Example long_name_without_renderer_aborts :
  is_Some (files Samples.long_named !! Samples.long_path)
  ∧ result (run FindWireTunerCLI Samples.long_named) = Some EmptyString
  ∧ result (run (GetThumbnail (Initialize Samples.long_path) 256)
                Samples.long_named) = None.
Proof.
  split; [|split].
  - eexists. vm_compute. reflexivity.
  - vm_compute. reflexivity.
  - unfold run. rewrite GetThumbnail_run.
    rewrite (GenerateThumbnail_key_overflow _ _ _ _ _ Samples.draft);
      [reflexivity|vm_compute; reflexivity..].
Qed.

(** So does a request of size 0, whatever GDI can allocate. *)
Example size_zero_fails :
  result (run (GetThumbnail Samples.draft_provider 0) Samples.bare)
  = Some (mkThumbnail E_FAIL NULL WTSAT_ARGB).
Proof. vm_compute. reflexivity. Qed.

(** ** The extent of the thumbnail *)

Lemma GenerateThumbnail_succeeded os this cx hr path σ1 :
  run (GenerateThumbnail this cx EmptyString) os = Returned (hr, path) σ1 →
  FAILED hr = false →
  cache_file os this cx path.
Proof.
  unfold run. intros Hrun Hhr.
  destruct (files os !! m_filePath this) as [file|] eqn:Hfile.
  - destruct (cacheKey (m_filePath this) (modTime_of file) cx)
      as [key|] eqn:Hkey.
    + exists file, key. split; [done|]. split; [done|].
      destruct (files os !! (cacheDir (temp_path os) +:+ key))
        as [cached|] eqn:Hloc.
      * rewrite (GenerateThumbnail_cached os this cx _ (boot os) file key)
          in Hrun by (try done; by rewrite Hloc).
        by injection Hrun as _ <- _.
      * rewrite (GenerateThumbnail_miss os this cx _ (boot os) file key)
          in Hrun by done.
        by apply render_keeps_outPath in Hrun.
    + by rewrite (GenerateThumbnail_key_overflow os this cx _ (boot os) file)
        in Hrun.
  - rewrite GenerateThumbnail_unreadable in Hrun by done.
    injection Hrun as <- _ _. discriminate Hhr.
Qed.

Lemma fallback_succeeded os cx :
  is_UINT cx →
  SUCCEEDED (status (fallback os cx)) = true →
  hbmp (fallback os cx)
  = Some (mkGdiBitmap (placeholder cx) (Color3 255 255 255))
  ∧ bm_width (placeholder cx) = cx ∧ bm_height (placeholder cx) = cx.
Proof.
  intros Hcx. rewrite fallback_value.
  destruct (bm_valid (placeholder cx)) eqn:Hvalid; [|done].
  destruct (gdi_alloc os (placeholder cx)); [|done]. intros _.
  apply (placeholder_valid cx Hcx) in Hvalid.
  destruct (placeholder_extent cx) as [Hw Hh].
  assert (to_INT cx = cx) as Hint
    by (apply to_INT_id; unfold INT_MAX in *; lia).
  repeat split; [done|congruence..].
Qed.

(** C2. When [GetThumbnail] returns a success status, the image is
    either the placeholder, which is exactly [cx] by [cx] pixels, or
    the raster decoded from the file at the cache location, with
    whatever width and height that file has. *)
Theorem thumbnail_extent os this cx t σ :
  is_UINT cx →
  run (GetThumbnail this cx) os = Returned t σ →
  SUCCEEDED (status t) = true →
  ∃ h, hbmp t = Some h
       ∧ ((hb_image h = placeholder cx
           ∧ hb_width h = cx ∧ hb_height h = cx)
          ∨ (∃ outPath cached,
               cache_file os this cx outPath
               ∧ fs σ !! outPath = Some cached
               ∧ image cached = Some (hb_image h)
               ∧ hb_width h = bm_width (hb_image h)
               ∧ hb_height h = bm_height (hb_image h))).
Proof.
  intros Hcx. unfold run. rewrite GetThumbnail_run.
  destruct (GenerateThumbnail this cx EmptyString os (boot os))
    as [[hr path] σ1|σ1] eqn:Hgen; [|done].
  destruct (FAILED hr) eqn:Hhr.
  { intros [= <- _] Hok.
    destruct (fallback_succeeded os cx Hcx Hok) as (Hh & Hw & Hht).
    eexists. split; [exact Hh|]. by left. }
  destruct (fs σ1 !! path ≫= image) as [bitmap|] eqn:Hdec; cbv zeta.
  - intros [= <- <-] Hok. cbn [status hbmp] in *.
    unfold converted in *.
    destruct (bm_valid bitmap && gdi_alloc os bitmap); [|done].
    eexists. split; [done|]. right.
    destruct (fs σ1 !! path) as [cached|] eqn:Hpath; [|done].
    exists path, cached. repeat split; try done.
    by apply (GenerateThumbnail_succeeded os this cx hr path σ1).
  - intros [= <- _] Hok.
    destruct (fallback_succeeded os cx Hcx Hok) as (Hh & Hw & Hht).
    eexists. split; [exact Hh|]. by left.
Qed.

Lemma thumbnail_extent_witness :
  ∃ h, hbmp (fallback Samples.bare 256) = Some h
       ∧ ((hb_image h = placeholder 256
           ∧ hb_width h = 256 ∧ hb_height h = 256)
          ∨ (∃ outPath cached,
               cache_file Samples.bare Samples.draft_provider 256 outPath
               ∧ fs (final (run (GetThumbnail Samples.draft_provider 256)
                                Samples.bare)) !! outPath = Some cached
               ∧ image cached = Some (hb_image h)
               ∧ hb_width h = bm_width (hb_image h)
               ∧ hb_height h = bm_height (hb_image h))).
Proof.
  apply (thumbnail_extent Samples.bare Samples.draft_provider 256).
  - unfold is_UINT, UINT_MAX. lia.
  - vm_compute. reflexivity.
  - reflexivity.
Defined.

(** The claim as C2 states it fails: the cache holds a 128 by 128 image
    under the key of the 256 pixel request, and that image is what
    [GetThumbnail] returns, with [S_OK]. *)
Lemma cached_image_keeps_its_extent :
  ¬ (∀ os this cx t σ,
       is_UINT cx →
       run (GetThumbnail this cx) os = Returned t σ →
       SUCCEEDED (status t) = true →
       ∃ h, hbmp t = Some h ∧ hb_width h = cx ∧ hb_height h = cx).
Proof.
  intros Hclaim.
  destruct (Hclaim Samples.small_in_cache Samples.draft_provider 256
              (mkThumbnail S_OK
                 (Some (mkGdiBitmap (mkBitmap 128 128 PixelFormat32bppARGB [])
                                    (Color4 255 255 255 255)))
                 WTSAT_ARGB)
              (final (run (GetThumbnail Samples.draft_provider 256)
                          Samples.small_in_cache)))
    as (h & Hh & Hw & _).
  - unfold is_UINT, UINT_MAX. lia.
  - vm_compute. reflexivity.
  - reflexivity.
  - injection Hh as <-. discriminate Hw.
Qed.

(** ** The cache location *)

Lemma ExecuteCLI_extends_trace os σ cmdLine :
  ∃ cs, calls (ExecuteCLI cmdLine os σ) = trace σ ++ cs.
Proof.
  destruct (launch os cmdLine) as [child|] eqn:Hl.
  - destruct (ExecuteCLI_launched os σ cmdLine child Hl)
      as (σ' & -> & Htrace & _).
    eexists. exact Htrace.
  - rewrite ExecuteCLI_not_launched by done. by eexists.
Qed.

Lemma render_extends_trace os this cx outPath σ :
  fs σ = files os →
  ∃ cs, calls (render this cx outPath os σ) = trace σ ++ cs.
Proof.
  intros Hfs.
  destruct (FindWireTunerCLI_anywhere os σ Hfs) as (cli & cs & Hrun & Hσ).
  unfold render. unfold bind at 1. rewrite Hσ.
  destruct (wstring.empty cli); [by eexists|].
  unfold bind at 1. unfold lift_crt.
  destruct (swprintf_s _ _) as [cmdLine|]; [|by eexists].
  destruct (ExecuteCLI_extends_trace os (logged σ cs) cmdLine) as (cs' & Hcs).
  exists (cs ++ cs'). unfold bind.
  destruct (ExecuteCLI cmdLine os (logged σ cs)) as [hr σ2|σ2];
    unfold calls in *; cbn [final ret] in *;
    rewrite Hcs; cbn [logged trace]; by rewrite <- app_assoc.
Qed.

(** C4. When the provider's file can be read and the text
    [<base name>-<t>-<cx>.png] has at most 511 characters, where [t] is
    the 64-bit last write time and both numbers are in decimal, the
    cache location is that text appended to
    [<temp path>wiretuner-thumbnails\]: it is the path whose existence
    [GenerateThumbnail] tests, fourth among its calls, and the
    [outPath] of every run that returns. *)
Theorem cache_location os this cx file :
  is_UINT cx →
  files os !! m_filePath this = Some file →
  let t := dwHighDateTime (ftLastWriteTime file) mod 2 ^ 32 * 2 ^ 32
           + dwLowDateTime (ftLastWriteTime file) mod 2 ^ 32 in
  let key := PathFindFileNameW (m_filePath this) +:+ "-"
             +:+ pretty (Z.to_N t) +:+ "-" +:+ pretty (Z.to_N cx)
             +:+ ".png" in
  let location := (temp_path os +:+ "wiretuner-thumbnails\") +:+ key in
  (String.length key ≤ 511)%nat →
  (∃ rest,
     calls (run (GenerateThumbnail this cx EmptyString) os)
     = [call_GetTempPathW;
        call_CreateDirectoryW (temp_path os +:+ "wiretuner-thumbnails\");
        call_GetFileAttributesExW (m_filePath this);
        call_PathFileExistsW location] ++ rest)
  ∧ (∀ hr outPath σ,
       run (GenerateThumbnail this cx EmptyString) os
       = Returned (hr, outPath) σ →
       outPath = location).
Proof.
  intros Hcx Hfile t key location Hfits.
  assert (cacheKey (m_filePath this) (modTime_of file) cx = Some key) as Hkey.
  { unfold cacheKey, cacheKey_text.
    rewrite fmt_u_pretty, fmt_llu_pretty by (done || apply QuadPart_range).
    apply swprintf_s_fits. fold t key. lia. }
  fold (cacheDir (temp_path os)) in location |- *.
  unfold run.
  destruct (files os !! location) as [cached|] eqn:Hloc.
  - rewrite (GenerateThumbnail_cached os this cx _ (boot os) file key)
      by (try done; by rewrite Hloc).
    split; [by exists []|]. by intros hr out σ [= _ <- _].
  - rewrite (GenerateThumbnail_miss os this cx _ (boot os) file key) by done.
    split.
    + edestruct (render_extends_trace os this cx location) as (cs & ->);
        [|by exists cs]. done.
    + intros hr out σ Hrun. by apply render_keeps_outPath in Hrun.
Qed.

(** The example of the specification: [draft.wiretuner], last write
    time 1700000000, size 256. *)
Lemma cache_location_witness :
  (∃ rest,
     calls (run (GenerateThumbnail Samples.draft_provider 256 EmptyString)
                Samples.bare)
     = [call_GetTempPathW;
        call_CreateDirectoryW "C:\Temp\wiretuner-thumbnails\";
        call_GetFileAttributesExW "C:\Users\tea\draft.wiretuner";
        call_PathFileExistsW
          "C:\Temp\wiretuner-thumbnails\draft.wiretuner-1700000000-256.png"]
       ++ rest)
  ∧ (∀ hr outPath σ,
       run (GenerateThumbnail Samples.draft_provider 256 EmptyString)
           Samples.bare
       = Returned (hr, outPath) σ →
       outPath
       = "C:\Temp\wiretuner-thumbnails\draft.wiretuner-1700000000-256.png").
Proof.
  apply (cache_location Samples.bare Samples.draft_provider 256
                        Samples.draft).
  - unfold is_UINT, UINT_MAX. lia.
  - reflexivity.
  - vm_compute. lia.
Defined.

(** The claim as C4 states it fails for a path whose base name has 512
    characters: the key does not fit [cacheKey], the run ends in the
    invalid-parameter handler after reading the file's attributes, and
    no cache location is ever tested. *)
Lemma long_name_overflows_cacheKey :
  ¬ (∀ os this cx file,
       is_UINT cx →
       files os !! m_filePath this = Some file →
       ∃ location rest,
         calls (run (GenerateThumbnail this cx EmptyString) os)
         = [call_GetTempPathW;
            call_CreateDirectoryW (temp_path os +:+ "wiretuner-thumbnails\");
            call_GetFileAttributesExW (m_filePath this);
            call_PathFileExistsW location] ++ rest).
Proof.
  intros Hclaim.
  destruct (Hclaim Samples.long_named (Initialize Samples.long_path) 256
              Samples.draft) as (location & rest & Hcalls).
  - unfold is_UINT, UINT_MAX. lia.
  - reflexivity.
  - vm_compute in Hcalls. discriminate Hcalls.
Qed.

Example long_name_run :
  run (GenerateThumbnail (Initialize Samples.long_path) 256 EmptyString)
      Samples.long_named
  = InvalidParameter
      (logged (boot Samples.long_named)
         (identity_calls Samples.long_named (Initialize Samples.long_path))).
Proof.
  apply (GenerateThumbnail_key_overflow _ _ _ _ _ Samples.draft).
  - vm_compute. reflexivity.
  - vm_compute. reflexivity.
Qed.

(** ** The placeholder's geometry *)

(** C8. For [1 ≤ cx ≤ INT_MAX] the placeholder is a [cx] by [cx]
    32-bit ARGB bitmap on which an opaque white rectangle covering it
    and then an opaque ellipse of colour (33, 150, 243) were filled;
    the ellipse's bounding square starts [cx / 4] pixels from the left
    and the top and is [cx - 2 * (cx / 4)] pixels wide, so it is
    centred, and twice its width is [cx + cx mod 4]: half of [cx]
    exactly when 4 divides [cx].  [GeneratePlaceholder] returns [S_OK]
    with that bitmap when GDI can allocate it, and [E_FAIL] with a null
    handle when it cannot. *)
Theorem placeholder_geometry cx :
  1 ≤ cx ≤ INT_MAX →
  let margin := cx / 4 in
  let diameter := cx - 2 * margin in
  placeholder cx
  = mkBitmap cx cx PixelFormat32bppARGB
      [op_FillRectangle (ARGB 255 255 255 255) 0 0 cx cx;
       op_FillEllipse (ARGB 255 33 150 243) margin margin diameter diameter]
  ∧ margin + diameter + margin = cx
  ∧ 2 * diameter = cx + cx mod 4
  ∧ (diameter = cx / 2 ↔ cx mod 4 = 0)
  ∧ ∀ this os σ,
      GeneratePlaceholder this cx NULL os σ
      = Returned
          (if gdi_alloc os (placeholder cx)
           then (S_OK, Some (mkGdiBitmap (placeholder cx)
                                         (ARGB 255 255 255 255)))
           else (E_FAIL, NULL)) σ.
Proof.
  intros Hcx margin diameter. unfold INT_MAX in Hcx.
  assert (0 ≤ margin ∧ 4 * margin ≤ cx ∧ cx < 4 * margin + 4) as Hm.
  { unfold margin. pose proof (Z.div_mod cx 4 ltac:(lia)).
    pose proof (Z.mod_pos_bound cx 4 ltac:(lia)). lia. }
  assert (cx mod 4 = cx - 4 * margin) as Hmod.
  { unfold margin. pose proof (Z.div_mod cx 4 ltac:(lia)). lia. }
  assert (is_UINT cx) as Hu by (unfold is_UINT, UINT_MAX; lia).
  assert (placeholder cx
          = mkBitmap cx cx PixelFormat32bppARGB
              [op_FillRectangle (ARGB 255 255 255 255) 0 0 cx cx;
               op_FillEllipse (ARGB 255 33 150 243)
                              margin margin diameter diameter]) as Hp.
  { unfold placeholder, FillEllipse, FillRectangle, Color3, Color4.
    cbn [bm_width bm_height bm_format bm_drawn app].
    rewrite (to_UINT_id cx) by done.
    rewrite (to_INT_id cx) by (unfold INT_MAX; lia).
    fold margin.
    rewrite (to_INT_id margin) by (unfold INT_MAX; lia).
    rewrite (to_INT_id (margin * 2)) by (unfold INT_MAX; lia).
    rewrite (to_UINT_id (margin * 2)) by (unfold is_UINT, UINT_MAX; lia).
    replace (cx - margin * 2) with diameter by (unfold diameter; lia).
    rewrite (to_UINT_id diameter)
      by (unfold is_UINT, UINT_MAX, diameter; lia).
    rewrite (to_INT_id diameter) by (unfold INT_MAX, diameter; lia).
    reflexivity. }
  split; [exact Hp|]. split; [unfold diameter; lia|].
  split; [unfold diameter; lia|]. split.
  - unfold diameter.
    pose proof (Z.div_mod cx 2 ltac:(lia)).
    pose proof (Z.mod_pos_bound cx 2 ltac:(lia)). lia.
  - intros this os σ. rewrite GeneratePlaceholder_run. unfold converted.
    rewrite (proj2 (placeholder_valid cx Hu)) by (unfold INT_MAX; lia).
    by destruct (gdi_alloc os (placeholder cx)).
Qed.

Lemma placeholder_geometry_witness :
  placeholder 256
  = mkBitmap 256 256 PixelFormat32bppARGB
      [op_FillRectangle (ARGB 255 255 255 255) 0 0 256 256;
       op_FillEllipse (ARGB 255 33 150 243) 64 64 128 128].
Proof.
  refine (proj1 (placeholder_geometry 256 _)). unfold INT_MAX. lia.
Defined.

(** The claim as C8 states it fails at size 6: the ellipse is 4 pixels
    wide, not 3, and starts 1 pixel from the edge. *)
Lemma placeholder_circle_wider_than_half :
  ¬ (∀ cx, 1 ≤ cx → is_UINT cx →
       ∀ brush x y w h,
         op_FillEllipse brush x y w h ∈ bm_drawn (placeholder cx) →
         w = cx / 2 ∧ h = cx / 2).
Proof.
  intros Hclaim.
  destruct (Hclaim 6 ltac:(lia) ltac:(unfold is_UINT, UINT_MAX; lia)
              (ARGB 255 33 150 243) 1 1 4 4) as [Hw _].
  - apply elem_of_cons. right. apply elem_of_cons. left. reflexivity.
  - vm_compute in Hw. discriminate Hw.
Qed.

(** Beyond [INT_MAX] the extent wraps to a negative [INT] and no bitmap
    is made. *)
Lemma GeneratePlaceholder_beyond_INT_MAX this cx os σ :
  INT_MAX < cx ≤ UINT_MAX →
  GeneratePlaceholder this cx NULL os σ = Returned (E_FAIL, NULL) σ.
Proof.
  intros Hcx. rewrite GeneratePlaceholder_run. unfold converted.
  destruct (bm_valid (placeholder cx)) eqn:Hvalid; [|done].
  apply placeholder_valid in Hvalid; [lia|].
  unfold is_UINT, INT_MAX in *. lia.
Qed.

(** ** The placeholder depends on the size alone *)

(** C10. Two calls of [GeneratePlaceholder] for the same size that
    both produce a bitmap produce the same one, raster and background,
    and the same status, whatever the two providers' file paths, file
    systems, environments and earlier calls are. *)
Theorem placeholder_depends_on_size_only
    cx this1 this2 os1 os2 σ1 σ2 hr1 hr2 h1 h2 σ1' σ2' :
  GeneratePlaceholder this1 cx NULL os1 σ1 = Returned (hr1, Some h1) σ1' →
  GeneratePlaceholder this2 cx NULL os2 σ2 = Returned (hr2, Some h2) σ2' →
  h1 = h2 ∧ hr1 = hr2 ∧ hb_image h1 = placeholder cx.
Proof.
  rewrite !GeneratePlaceholder_run. unfold converted.
  destruct (_ && _); [|done]. destruct (_ && _); [|done].
  by intros [= <- <- _] [= <- <- _].
Qed.

Lemma placeholder_depends_on_size_only_witness :
  mkGdiBitmap (placeholder 256) (Color3 255 255 255)
  = mkGdiBitmap (placeholder 256) (Color3 255 255 255)
  ∧ S_OK = S_OK
  ∧ hb_image (mkGdiBitmap (placeholder 256) (Color3 255 255 255))
    = placeholder 256.
Proof.
  apply (placeholder_depends_on_size_only 256
           Samples.draft_provider (Initialize "D:\other.wiretuner")
           Samples.bare Samples.small_in_cache
           (boot Samples.bare)
           (logged (boot Samples.small_in_cache) [call_GetTempPathW])
           S_OK S_OK _ _
           (boot Samples.bare)
           (logged (boot Samples.small_in_cache) [call_GetTempPathW]));
    reflexivity.
Defined.

(** ** The launch block on a sample machine *)

Lemma ExecuteCLI_outcome_witness :
  result (run (ExecuteCLI "wiretuner.exe") Samples.installed) = Some S_OK.
Proof.
  apply (proj1 (proj2 (ExecuteCLI_outcome Samples.installed
                         (boot Samples.installed) "wiretuner.exe"))).
  exists (mkChild (Some 120) 0 {[ Samples.draft_png := Samples.png 256 256 ]}),
         120.
  split; [reflexivity|]. split; [reflexivity|]. split; [lia | reflexivity].
Defined.

(** The scenario of the specification: with the renderer installed the
    request is rendered and the decoded 256 by 256 output is returned. *)
Example rendered_thumbnail :
  result (run (GetThumbnail Samples.draft_provider 256) Samples.installed)
  = Some (mkThumbnail S_OK
            (Some (mkGdiBitmap (mkBitmap 256 256 PixelFormat32bppARGB [])
                               (Color4 255 255 255 255)))
            WTSAT_ARGB).
Proof. vm_compute. reflexivity. Qed.

(** * Further properties *)

(** ** The search for the renderer *)

Lemma search_installed_first paths os σ :
  search_installed paths os σ
  = match first_existing (fs σ) paths with
    | Some (i, p) => Returned (Some p) (logged σ (probes (take (S i) paths)))
    | None => Returned None (logged σ (probes paths))
    end.
Proof.
  revert σ. induction paths as [|p paths IH]; intros σ.
  - simpl. unfold ret. by rewrite logged_nil.
  - cbn [search_installed]. unfold bind at 1.
    unfold PathFileExistsW, syscall. unfold first_existing.
    cbn [list_find]. case_decide as Hp.
    + by rewrite bool_decide_eq_true_2.
    + rewrite bool_decide_eq_false_2 by done.
      rewrite IH. cbn [fs logged]. unfold first_existing.
      destruct (list_find _ paths) as [[i q]|]; cbn [fmap option_fmap
        option_map prod_map fst snd id]; by rewrite logged_logged.
Qed.

Lemma find_terminated dir rest :
  free_of ";" dir →
  wstring.find ";" (dir +:+ ";" +:+ rest) = Some (String.length dir).
Proof.
  unfold free_of. induction dir as [|a dir IH]; simpl; [done|].
  destruct (Ascii.eqb a ";"); [done|].
  destruct (wstring.find ";" dir) eqn:Hd; [done|]. intros _.
  by rewrite IH.
Qed.

Lemma substr0_terminated dir rest :
  wstring.substr0 (String.length dir) (dir +:+ rest) = dir.
Proof. induction dir as [|a dir IH]; simpl; [by destruct rest|]. by rewrite IH. Qed.

Lemma erase0_terminated dir rest :
  wstring.erase0 (S (String.length dir)) (dir +:+ ";" +:+ rest) = rest.
Proof. induction dir as [|a dir IH]; simpl; [done|]. exact IH. Qed.

Lemma search_PATH_join dirs last os σ :
  Forall (free_of ";") dirs →
  free_of ";" last →
  search_PATH (join_PATH dirs last) os σ
  = match first_existing (fs σ) (exe_in <$> dirs) with
    | Some (i, p) =>
        Returned p (logged σ (probes (take (S i) (exe_in <$> dirs))))
    | None => Returned EmptyString (logged σ (probes (exe_in <$> dirs)))
    end.
Proof.
  intros Hdirs Hlast. revert σ.
  induction Hdirs as [|dir dirs Hdir _ IH]; intros σ.
  - cbn [join_PATH foldr]. rewrite search_PATH_turn, Hlast. unfold ret.
    simpl. by rewrite logged_nil.
  - cbn [join_PATH foldr]. fold (join_PATH dirs last).
    rewrite search_PATH_turn, find_terminated by done. cbv zeta.
    rewrite substr0_terminated, erase0_terminated.
    fold (exe_in dir). unfold bind at 1.
    unfold PathFileExistsW, syscall. unfold first_existing.
    cbn [fmap list_fmap list_find]. case_decide as Hp.
    + by rewrite bool_decide_eq_true_2.
    + rewrite bool_decide_eq_false_2 by done.
      rewrite IH. cbn [fs logged]. unfold first_existing.
      destruct (list_find _ _) as [[i q]|]; cbn [fmap option_fmap
        option_map prod_map fst snd id]; by rewrite logged_logged.
Qed.

(** X1. On a [PATH] text made of directories that are each followed by
    [';'] and of a remainder without [';'], the [while] loop tests
    [<dir>\wiretuner.exe] for those directories in order and returns
    the first that exists; it never tests the remainder, and returns
    the empty string when none of the tested files exists. *)
Theorem search_PATH_tests_terminated_directories dirs last os σ :
  Forall (free_of ";") dirs →
  free_of ";" last →
  search_PATH (join_PATH dirs last) os σ
  = match first_existing (fs σ) (exe_in <$> dirs) with
    | Some (i, p) =>
        Returned p (logged σ (probes (take (S i) (exe_in <$> dirs))))
    | None => Returned EmptyString (logged σ (probes (exe_in <$> dirs)))
    end.
Proof. apply search_PATH_join. Qed.


Lemma search_PATH_tests_terminated_directories_witness :
  search_PATH (join_PATH ["C:\tools"; "C:\wt"] "C:\last")
              Samples.on_PATH (boot Samples.on_PATH)
  = Returned "C:\wt\wiretuner.exe"
      (logged (boot Samples.on_PATH)
         (probes ["C:\tools\wiretuner.exe"; "C:\wt\wiretuner.exe"])).
Proof.
  apply (search_PATH_tests_terminated_directories
           ["C:\tools"; "C:\wt"] "C:\last" Samples.on_PATH
           (boot Samples.on_PATH)).
  - repeat constructor.
  - reflexivity.
Defined.

(** Every text is of that form. *)
Lemma PATH_decomposes path :
  ∃ dirs last,
    path = join_PATH dirs last ∧ Forall (free_of ";") dirs ∧ free_of ";" last.
Proof.
  induction path as [|a path (dirs & last & -> & Hdirs & Hlast)].
  - by exists [], EmptyString.
  - destruct (Ascii.eqb a ";") eqn:Ha.
    + apply Ascii.eqb_eq in Ha as ->.
      exists (EmptyString :: dirs), last. repeat split; [|done].
      by constructor.
    + destruct dirs as [|dir dirs].
      * exists [], (String a last). repeat split; [done|].
        unfold free_of in *. simpl. by rewrite Ha, Hlast.
      * exists (String a dir :: dirs), last. repeat split; [|done].
        apply Forall_cons in Hdirs as [Hdir Hdirs]. constructor; [|done].
        unfold free_of in *. simpl. by rewrite Ha, Hdir.
Qed.

Lemma FindWireTunerCLI_installed os σ i p :
  first_existing (fs σ) searchPaths = Some (i, p) →
  FindWireTunerCLI os σ
  = Returned p (logged σ (probes (take (S i) searchPaths)))
  ∧ p ∈ searchPaths
  ∧ is_Some (fs σ !! p)
  ∧ ∀ name, call_GetEnvironmentVariableW name
            ∉ probes (take (S i) searchPaths).
Proof.
  intros Hfirst. split; [|split; [|split]].
  - unfold FindWireTunerCLI. unfold bind at 1.
    by rewrite search_installed_first, Hfirst.
  - apply list_find_Some in Hfirst as (Hp & _ & _).
    by eapply list_elem_of_lookup_2.
  - by apply list_find_Some in Hfirst as (_ & Hp & _).
  - intros name Hin. unfold probes in Hin.
    apply list_elem_of_fmap in Hin as (q & [=] & _).
Qed.

(** X2. When one of the two installation paths exists,
    [FindWireTunerCLI] returns the first that does, having tested the
    installation paths up to it and nothing else: [PATH] is not read. *)
Theorem FindWireTunerCLI_prefers_installed os σ i p :
  first_existing (fs σ) searchPaths = Some (i, p) →
  FindWireTunerCLI os σ
  = Returned p (logged σ (probes (take (S i) searchPaths)))
  ∧ p ∈ searchPaths
  ∧ is_Some (fs σ !! p)
  ∧ ∀ name, call_GetEnvironmentVariableW name
            ∉ probes (take (S i) searchPaths).
Proof. apply FindWireTunerCLI_installed. Qed.


Lemma FindWireTunerCLI_prefers_installed_witness :
  FindWireTunerCLI Samples.installed (boot Samples.installed)
  = Returned "C:\Program Files\WireTuner\wiretuner.exe"
      (logged (boot Samples.installed)
         (probes ["C:\Program Files\WireTuner\wiretuner.exe"])).
Proof.
  refine (proj1 (FindWireTunerCLI_prefers_installed Samples.installed
                   (boot Samples.installed) 0%nat
                   "C:\Program Files\WireTuner\wiretuner.exe" _)).
  vm_compute. reflexivity.
Defined.

Lemma FindWireTunerCLI_not_installed os σ :
  first_existing (fs σ) searchPaths = None →
  FindWireTunerCLI os σ
  = match environment os !! "PATH" with
    | Some (String a path) =>
        search_PATH (String a path) os
          (logged σ (probes searchPaths
                     ++ [call_GetEnvironmentVariableW "PATH"]))
    | _ =>
        Returned EmptyString
          (logged σ (probes searchPaths
                     ++ [call_GetEnvironmentVariableW "PATH"]))
    end.
Proof.
  intros Hnone. unfold FindWireTunerCLI. unfold bind at 1.
  rewrite search_installed_first, Hnone. unfold bind at 1.
  unfold GetEnvironmentVariableW, syscall.
  destruct (environment os !! "PATH") as [[|a path]|];
    by rewrite logged_logged.
Qed.

Lemma FindWireTunerCLI_sound os σ cliPath σ' :
  FindWireTunerCLI os σ = Returned cliPath σ' →
  wstring.empty cliPath = false →
  is_Some (fs σ !! cliPath)
  ∧ (cliPath ∈ searchPaths ∨ ∃ dir, cliPath = exe_in dir)
  ∧ fs σ' = fs σ ∧ clock σ' = clock σ.
Proof.
  intros Hrun Hne.
  destruct (first_existing (fs σ) searchPaths) as [[i p]|] eqn:Hfirst.
  - destruct (FindWireTunerCLI_installed os σ i p Hfirst)
      as (Hret & Hin & Hex & _).
    rewrite Hret in Hrun. injection Hrun as <- <-. by repeat split; [|left|..].
  - rewrite FindWireTunerCLI_not_installed in Hrun by done.
    destruct (environment os !! "PATH") as [[|a path]|];
      [by injection Hrun as <- _| |by injection Hrun as <- _].
    remember (String a path) as text eqn:Htext. clear Htext.
    destruct (PATH_decomposes text) as (dirs & last & -> & Hdirs & Hlast).
    rewrite search_PATH_join in Hrun by done.
    cbn [fs logged] in Hrun.
    destruct (first_existing (fs σ) (exe_in <$> dirs)) as [[j q]|] eqn:Hq;
      [|by injection Hrun as <- _].
    injection Hrun as <- <-.
    apply list_find_Some in Hq as (Hlook & Hex & _).
    apply list_lookup_fmap_Some in Hlook as (dir & -> & _).
    repeat split; [done|right; by exists dir].
Qed.

Lemma probed_up_to (paths : list string) i p :
  paths !! i = Some p →
  call_PathFileExistsW p ∈ probes (take (S i) paths).
Proof.
  intros Hp. unfold probes. apply list_elem_of_fmap_2.
  apply (list_elem_of_lookup_2 _ i). rewrite lookup_take_lt by lia. exact Hp.
Qed.

(** X3. Whatever [FindWireTunerCLI] returns other than the empty
    string is a path that exists in the file system and that the
    search has tested; it is one of the two installation paths, or
    [<dir>\wiretuner.exe] for a directory [dir] that the value of
    [PATH] holds followed by a [';']; the search changes neither the
    file system nor the clock. *)
Theorem FindWireTunerCLI_returns_existing os σ cliPath σ' :
  FindWireTunerCLI os σ = Returned cliPath σ' →
  wstring.empty cliPath = false →
  is_Some (fs σ !! cliPath)
  ∧ call_PathFileExistsW cliPath ∈ trace σ'
  ∧ (cliPath ∈ searchPaths
     ∨ ∃ dirs last dir,
         environment os !! "PATH" = Some (join_PATH dirs last)
         ∧ Forall (free_of ";") dirs ∧ free_of ";" last
         ∧ dir ∈ dirs ∧ cliPath = exe_in dir)
  ∧ fs σ' = fs σ ∧ clock σ' = clock σ.
Proof.
  intros Hrun Hne.
  destruct (first_existing (fs σ) searchPaths) as [[i p]|] eqn:Hfirst.
  - destruct (FindWireTunerCLI_installed os σ i p Hfirst)
      as (Hret & Hin & Hex & _).
    rewrite Hret in Hrun. injection Hrun as <- <-.
    apply list_find_Some in Hfirst as (Hlook & _ & _).
    split; [done|]. split; [|by split; [left|]].
    cbn [trace logged]. apply elem_of_app. right.
    exact (probed_up_to _ _ _ Hlook).
  - rewrite FindWireTunerCLI_not_installed in Hrun by done.
    destruct (environment os !! "PATH") as [text|] eqn:Henv;
      [|by injection Hrun as <- _].
    destruct text as [|a path]; [by injection Hrun as <- _|].
    remember (String a path) as text eqn:Htext. clear Htext.
    destruct (PATH_decomposes text) as (dirs & last & -> & Hdirs & Hlast).
    rewrite search_PATH_join in Hrun by done.
    cbn [fs logged] in Hrun.
    destruct (first_existing (fs σ) (exe_in <$> dirs)) as [[j q]|] eqn:Hq;
      [|by injection Hrun as <- _].
    injection Hrun as <- <-.
    apply list_find_Some in Hq as (Hlook & Hex & _).
    split; [done|]. split; [|split; [|done]].
    + cbn [trace logged]. apply elem_of_app. right.
      exact (probed_up_to _ _ _ Hlook).
    + apply list_lookup_fmap_Some in Hlook as (dir & -> & Hdir).
      right. exists dirs, last, dir. repeat split; try done.
      by eapply list_elem_of_lookup_2.
Qed.


Lemma FindWireTunerCLI_returns_existing_witness :
  is_Some (fs (boot Samples.terminated_PATH) !! "C:\wt\wiretuner.exe").
Proof.
  refine (proj1 (FindWireTunerCLI_returns_existing Samples.terminated_PATH
                   (boot Samples.terminated_PATH) "C:\wt\wiretuner.exe"
                   (final (run FindWireTunerCLI Samples.terminated_PATH))
                   _ _)).
  - vm_compute. reflexivity.
  - reflexivity.
Defined.

(** ** What a request returns when a file is decoded *)

Lemma GetThumbnail_decoded this cx os σ hr path σ1 bitmap :
  GenerateThumbnail this cx EmptyString os σ = Returned (hr, path) σ1 →
  FAILED hr = false →
  fs σ1 !! path ≫= image = Some bitmap →
  GetThumbnail this cx os σ
  = Returned
      (mkThumbnail
         (status_of (converted os bitmap (Color4 255 255 255 255)))
         (converted os bitmap (Color4 255 255 255 255)) WTSAT_ARGB)
      (logged σ1 [call_Bitmap_FromFile path]).
Proof.
  intros Hgen Hhr Hdec. by rewrite GetThumbnail_run, Hgen, Hhr, Hdec.
Qed.

(** X4. On a cache hit whose file decodes, [GetThumbnail] returns that
    raster over a white background with [S_OK] when GDI can make a
    bitmap of it, and [E_FAIL] with a null handle, not the placeholder,
    when it cannot; either way the file system is left as it was and no
    time is spent waiting. *)
Theorem cached_thumbnail_returned os this cx outPath cached bitmap :
  cache_file os this cx outPath →
  files os !! outPath = Some cached →
  image cached = Some bitmap →
  ∃ t σ,
    run (GetThumbnail this cx) os = Returned t σ
    ∧ fs σ = files os ∧ clock σ = 0
    ∧ (bm_valid bitmap && gdi_alloc os bitmap = true →
       t = mkThumbnail S_OK
             (Some (mkGdiBitmap bitmap (ARGB 255 255 255 255))) WTSAT_ARGB)
    ∧ (bm_valid bitmap && gdi_alloc os bitmap = false →
       t = mkThumbnail E_FAIL NULL WTSAT_ARGB).
Proof.
  intros (file & key & Hfile & Hkey & ->) Hhit Hdec.
  eexists _, _. split.
  - unfold run.
    eapply (GetThumbnail_decoded this cx os (boot os) S_OK _ _ bitmap).
    + apply (GenerateThumbnail_cached os this cx _ (boot os) file key);
        [done..|by exists cached].
    + done.
    + cbn [fs logged boot]. by rewrite Hhit.
  - unfold converted. repeat split; intros ->; done.
Qed.

Lemma cached_thumbnail_returned_witness :
  ∃ t σ,
    run (GetThumbnail Samples.draft_provider 256) Samples.small_in_cache
    = Returned t σ
    ∧ t = mkThumbnail S_OK
            (Some (mkGdiBitmap (mkBitmap 128 128 PixelFormat32bppARGB [])
                               (ARGB 255 255 255 255))) WTSAT_ARGB.
Proof.
  destruct (cached_thumbnail_returned Samples.small_in_cache
              Samples.draft_provider 256 Samples.draft_png
              (Samples.png 128 128)
              (mkBitmap 128 128 PixelFormat32bppARGB []))
    as (t & σ & Hrun & _ & _ & Hok & _).
  - exists Samples.draft, "draft.wiretuner-1700000000-256.png".
    repeat split; reflexivity.
  - reflexivity.
  - reflexivity.
  - exists t, σ. split; [exact Hrun|]. apply Hok. reflexivity.
Defined.

(** X5. When the request misses the cache, the renderer is launched,
    exits within the wait with status 0 and a decodable file is at the
    cache location afterwards, [GetThumbnail] returns the raster of
    that file ([S_OK] when GDI can make a bitmap of it, [E_FAIL] with a
    null handle otherwise), and the files the child wrote are in the
    file system, the cache entry among them. *)
Theorem rendered_thumbnail_returned os this cx outPath cmdLine child bitmap :
  renders_with os this cx outPath cmdLine →
  launch os cmdLine = Some child →
  exits_in_time child = true →
  exit_status child = 0 →
  (writes child ∪ files os) !! outPath ≫= image = Some bitmap →
  ∃ t σ,
    run (GetThumbnail this cx) os = Returned t σ
    ∧ fs σ = writes child ∪ files os
    ∧ is_Some (fs σ !! outPath)
    ∧ (bm_valid bitmap && gdi_alloc os bitmap = true →
       t = mkThumbnail S_OK
             (Some (mkGdiBitmap bitmap (ARGB 255 255 255 255))) WTSAT_ARGB)
    ∧ (bm_valid bitmap && gdi_alloc os bitmap = false →
       t = mkThumbnail E_FAIL NULL WTSAT_ARGB).
Proof.
  intros Hr Hl Hin Hcode Hdec.
  destruct (GenerateThumbnail_launched _ _ _ _ _ _ Hr Hl)
    as (σ2 & Hrun & Hfs).
  rewrite Hin, Hcode in Hrun. cbn [andb Z.eqb] in Hrun. rewrite Hin in Hfs.
  eexists _, _. split.
  - unfold run.
    eapply (GetThumbnail_decoded this cx os (boot os) S_OK _ _ bitmap);
      [exact Hrun|done|by rewrite Hfs].
  - cbn [fs logged]. rewrite Hfs. split; [done|]. split.
    + destruct ((writes child ∪ files os) !! outPath); [by eexists|done].
    + unfold converted. split; intros ->; done.
Qed.

Lemma rendered_thumbnail_returned_witness :
  ∃ t σ,
    run (GetThumbnail Samples.draft_provider 256) Samples.installed
    = Returned t σ
    ∧ t = mkThumbnail S_OK
            (Some (mkGdiBitmap (mkBitmap 256 256 PixelFormat32bppARGB [])
                               (ARGB 255 255 255 255))) WTSAT_ARGB.
Proof.
  destruct (rendered_thumbnail_returned Samples.installed
              Samples.draft_provider 256 Samples.draft_png
              (cmdLine_text "C:\Program Files\WireTuner\wiretuner.exe"
                            Samples.draft_path Samples.draft_png 256)
              (mkChild (Some 120) 0
                       {[ Samples.draft_png := Samples.png 256 256 ]})
              (mkBitmap 256 256 PixelFormat32bppARGB []))
    as (t & σ & Hrun & _ & _ & Hok & _).
  - split; [|split].
    + exists Samples.draft, "draft.wiretuner-1700000000-256.png".
      repeat split; reflexivity.
    + reflexivity.
    + exists "C:\Program Files\WireTuner\wiretuner.exe".
      split; [vm_compute; reflexivity|]. split; reflexivity.
  - reflexivity.
  - reflexivity.
  - reflexivity.
  - vm_compute. reflexivity.
  - exists t, σ. split; [exact Hrun|]. apply Hok. reflexivity.
Defined.

(** X6. An undecodable file at the cache location is never replaced:
    from any state with that file system the request gets the
    placeholder outcome after the same five calls, none of which
    launches the renderer, and the file system is unchanged, so every
    later request meets the same file. *)
Theorem undecodable_cache_entry_stays os this cx outPath σ :
  cache_file os this cx outPath →
  is_Some (files os !! outPath) →
  files os !! outPath ≫= image = None →
  fs σ = files os →
  ∃ σ',
    GetThumbnail this cx os σ = Returned (fallback os cx) σ'
    ∧ fs σ' = files os
    ∧ trace σ' = trace σ ++ [call_GetTempPathW;
                             call_CreateDirectoryW (cacheDir (temp_path os));
                             call_GetFileAttributesExW (m_filePath this);
                             call_PathFileExistsW outPath;
                             call_Bitmap_FromFile outPath].
Proof.
  intros (file & key & Hfile & Hkey & ->) Hhit Hundec Hfs.
  rewrite GetThumbnail_run.
  rewrite (GenerateThumbnail_cached os this cx _ σ file key)
    by (rewrite ?Hfs; done).
  cbn [FAILED S_OK Z.ltb Z.compare fs logged]. rewrite Hfs, Hundec.
  eexists. split; [done|]. split; [done|].
  cbn [trace logged identity_calls]. by rewrite <- !app_assoc.
Qed.

Lemma undecodable_cache_entry_stays_witness :
  ∃ σ',
    GetThumbnail Samples.draft_provider 256 Scenes.corrupt_cache
                 (boot Scenes.corrupt_cache)
    = Returned (fallback Scenes.corrupt_cache 256) σ'.
Proof.
  destruct (undecodable_cache_entry_stays Scenes.corrupt_cache
              Samples.draft_provider 256 Samples.draft_png
              (boot Scenes.corrupt_cache))
    as (σ' & Hrun & _).
  - exists Samples.draft, "draft.wiretuner-1700000000-256.png".
    repeat split; reflexivity.
  - eexists. reflexivity.
  - reflexivity.
  - reflexivity.
  - exists σ'. exact Hrun.
Defined.

(** ** Launching at most once, waiting at most 5000 ms *)

Lemma processless_ret {A} (a : A) : processless (ret a).
Proof. intros os σ. exists a, []. by rewrite logged_nil. Qed.

Lemma processless_bind {A B} (m : M A) (f : A → M B) :
  processless m → (∀ a, processless (f a)) → processless (bind m f).
Proof.
  intros Hm Hf os σ.
  destruct (Hm os σ) as (a & cs & Ha & Hcs).
  destruct (Hf a os (logged σ cs)) as (b & cs' & Hb & Hcs').
  exists b, (cs ++ cs'). unfold bind. rewrite Ha, Hb, logged_logged.
  split; [done | by apply Forall_app].
Qed.

Lemma processless_PathFileExistsW path : processless (PathFileExistsW path).
Proof. intros os σ. eexists _, _. split; [reflexivity|]. by repeat constructor. Qed.

Lemma processless_GetEnvironmentVariableW name :
  processless (GetEnvironmentVariableW name).
Proof.
  intros os σ. unfold GetEnvironmentVariableW, syscall.
  destruct (environment os !! name); eexists _, _;
    (split; [reflexivity | by repeat constructor]).
Qed.

Lemma processless_search_installed paths :
  processless (search_installed paths).
Proof.
  induction paths as [|p paths IH]; simpl.
  - apply processless_ret.
  - apply processless_bind; [apply processless_PathFileExistsW|].
    intros [|]; [apply processless_ret | apply IH].
Qed.

Lemma processless_search_PATH path : processless (search_PATH path).
Proof.
  funelim (search_PATH path).
  - apply processless_bind; [apply processless_PathFileExistsW|].
    intros [|]; [apply processless_ret|].
    intros os σ. exact (H false os σ os σ).
  - apply processless_ret.
Qed.

Lemma processless_FindWireTunerCLI : processless FindWireTunerCLI.
Proof.
  unfold FindWireTunerCLI.
  apply processless_bind; [apply processless_search_installed|].
  intros [p|]; [apply processless_ret|].
  apply processless_bind; [apply processless_GetEnvironmentVariableW|].
  intros [pathLen pathBuf].
  destruct (0 <? pathLen);
    [apply processless_search_PATH | apply processless_ret].
Qed.

Lemma ExecuteCLI_shape os σ cmdLine :
  ∃ hr σ' tail,
    ExecuteCLI cmdLine os σ = Returned hr σ'
    ∧ trace σ' = trace σ ++ call_CreateProcessW cmdLine :: tail
    ∧ (tail = [] ∨ tail = after_launch)
    ∧ clock σ ≤ clock σ' ≤ clock σ + 5000.
Proof.
  destruct (launch os cmdLine) as [child|] eqn:Hl.
  - unfold ExecuteCLI. run_calls. rewrite Hl.
    cbn [fmap option_fmap option_map]. cbv beta iota.
    rewrite exited_by_deadline.
    destruct (exits_in_time child) eqn:Hin;
      cbn [proc_child proc_started clock fs trace logged].
    + rewrite exited_by_after_wait by done.
      assert (clock σ ≤ Z.max (clock σ)
                (clock σ + default 0 (exits_after child)) ≤ clock σ + 5000).
      { unfold exits_in_time in Hin.
        destruct (exits_after child) as [d|]; [|done]. simpl.
        apply Z.leb_le in Hin. lia. }
      destruct (exit_status child =? 0); simpl;
        (eexists _, _, after_launch; split; [reflexivity|]; simpl;
         rewrite <- !app_assoc; split; [done|]; split; [by right | done]).
    + simpl. eexists _, _, after_launch. split; [reflexivity|]. simpl.
      rewrite <- !app_assoc. split; [done|]. split; [by right | lia].
  - rewrite ExecuteCLI_not_launched by done.
    eexists _, _, []. split; [done|]. split; [done|]. split; [by left|].
    simpl. lia.
Qed.

Lemma cache_file_unique os this cx outPath outPath' :
  cache_file os this cx outPath → cache_file os this cx outPath' →
  outPath = outPath'.
Proof.
  intros (file & key & Hfile & Hkey & ->) (file' & key' & Hfile' & Hkey' & ->).
  rewrite Hfile in Hfile'. injection Hfile' as <-.
  rewrite Hkey in Hkey'. by injection Hkey' as <-.
Qed.

Lemma FindWireTunerCLI_calls os σ :
  fs σ = files os →
  ∃ cliPath cs,
    result (run FindWireTunerCLI os) = Some cliPath
    ∧ FindWireTunerCLI os σ = Returned cliPath (logged σ cs)
    ∧ Forall (λ c, is_process_call c = false) cs.
Proof.
  intros Hfs.
  destruct (FindWireTunerCLI_anywhere os σ Hfs) as (cli & cs & Hboot & Hσ).
  destruct (processless_FindWireTunerCLI os σ) as (cli' & cs' & Hσ' & Hcs').
  exists cli, cs. split; [by rewrite Hboot|]. split; [done|].
  rewrite Hσ in Hσ'. injection Hσ' as _ Heq.
  by apply app_inv_head in Heq as ->.
Qed.

Lemma GenerateThumbnail_shape os this cx out :
  (∃ outPath cmdLine cs tail,
     renders_with os this cx outPath cmdLine
     ∧ calls (run (GenerateThumbnail this cx out) os)
       = cs ++ call_CreateProcessW cmdLine :: tail
     ∧ Forall (λ c, is_process_call c = false) cs
     ∧ (tail = [] ∨ tail = after_launch)
     ∧ 0 ≤ clock (final (run (GenerateThumbnail this cx out) os)) ≤ 5000)
  ∨ ((∀ outPath cmdLine, ¬ renders_with os this cx outPath cmdLine)
     ∧ Forall (λ c, is_process_call c = false)
              (calls (run (GenerateThumbnail this cx out) os))
     ∧ clock (final (run (GenerateThumbnail this cx out) os)) = 0).
Proof.
  unfold run.
  destruct (files os !! m_filePath this) as [file|] eqn:Hfile; cycle 1.
  { right. rewrite GenerateThumbnail_unreadable by done. split; [|split].
    - intros outPath cmdLine ((file & key & Hf & _) & _). simpl in *. congruence.
    - by repeat constructor.
    - done. }
  destruct (cacheKey (m_filePath this) (modTime_of file) cx) as [key|] eqn:Hkey;
    cycle 1.
  { right.
    rewrite (GenerateThumbnail_key_overflow os this cx _ (boot os) file)
      by done.
    split; [|split].
    - intros outPath cmdLine ((file' & key & Hf & Hk & _) & _).
      rewrite Hfile in Hf. injection Hf as <-. congruence.
    - by repeat constructor.
    - done. }
  assert (cache_file os this cx (cacheDir (temp_path os) +:+ key)) as Hcache
    by (by exists file, key).
  set (outPath := cacheDir (temp_path os) +:+ key) in *.
  destruct (files os !! outPath) as [cached|] eqn:Hloc.
  { right.
    rewrite (GenerateThumbnail_cached os this cx _ (boot os) file key)
      by (try done; by exists cached).
    split; [|split].
    - intros outPath' cmdLine (Hc & Hmiss & _).
      rewrite <- (cache_file_unique _ _ _ _ _ Hcache Hc) in Hmiss. congruence.
    - by repeat constructor.
    - done. }
  rewrite (GenerateThumbnail_miss os this cx _ (boot os) file key) by done.
  fold outPath.
  set (σ4 := logged (boot os) _).
  destruct (FindWireTunerCLI_calls os σ4 eq_refl)
    as (cli & cs & Hcli & Hfind & Hcs).
  assert (render this cx outPath os σ4
          = if wstring.empty cli then Returned (E_FAIL, outPath) (logged σ4 cs)
            else match swprintf_s 2048
                         (cmdLine_text cli (m_filePath this) outPath cx) with
                 | Some cmdLine =>
                     match ExecuteCLI cmdLine os (logged σ4 cs) with
                     | Returned hr σ2 => Returned (hr, outPath) σ2
                     | InvalidParameter σ2 => InvalidParameter σ2
                     end
                 | None => InvalidParameter (logged σ4 cs)
                 end) as ->.
  { unfold render. unfold bind at 1. rewrite Hfind.
    destruct (wstring.empty cli); [done|].
    unfold bind at 1. unfold lift_crt.
    destruct (swprintf_s _ _) as [cmdLine|]; [|done].
    unfold bind. by destruct (ExecuteCLI cmdLine os (logged σ4 cs)). }
  destruct (wstring.empty cli) eqn:Hempty.
  { right. split; [|split].
    - intros outPath' cmdLine (_ & _ & cli' & Hcli' & Hne & _). congruence.
    - unfold calls, σ4. cbn [final trace logged boot app].
      apply Forall_app. split; [by repeat constructor | done].
    - done. }
  destruct (swprintf_s 2048 _) as [cmdLine|] eqn:Hcmd.
  - left.
    destruct (ExecuteCLI_shape os (logged σ4 cs) cmdLine)
      as (hr & σ' & tail & Hrun & Htrace & Htail & Hclock).
    exists outPath, cmdLine,
      (identity_calls os this ++ [call_PathFileExistsW outPath] ++ cs), tail.
    rewrite Hrun. unfold calls. cbn [final].
    split; [|split; [|split; [|split]]].
    + split; [done|]. split; [done|]. by exists cli.
    + rewrite Htrace. unfold σ4. cbn [trace logged boot app].
      by rewrite <- !app_assoc.
    + apply Forall_app. split; [by repeat constructor|].
      apply Forall_app. split; [by repeat constructor | done].
    + done.
    + unfold σ4 in Hclock. cbn [clock logged boot] in Hclock. lia.
  - right. split; [|split].
    + intros outPath' cmdLine (Hc & _ & cli' & Hcli' & _ & Hfit).
      rewrite <- (cache_file_unique _ _ _ _ _ Hcache Hc) in Hfit.
      rewrite Hcli in Hcli'. injection Hcli' as <-. congruence.
    + unfold calls, σ4. cbn [final trace logged boot app].
      apply Forall_app. split; [by repeat constructor | done].
    + done.
Qed.

Lemma GetThumbnail_final this cx os :
  ∃ cs,
    final (run (GetThumbnail this cx) os)
    = logged (final (run (GenerateThumbnail this cx EmptyString) os)) cs
    ∧ Forall (λ c, is_process_call c = false) cs.
Proof.
  unfold run. rewrite GetThumbnail_run.
  destruct (GenerateThumbnail this cx EmptyString os (boot os))
    as [[hr path] σ1|σ1].
  - destruct (FAILED hr).
    + exists []. by rewrite logged_nil.
    + exists [call_Bitmap_FromFile path]. split; [|by repeat constructor].
      by destruct (fs σ1 !! path ≫= image).
  - exists []. by rewrite logged_nil.
Qed.

Lemma renders_with_unique os this cx outPath cmdLine outPath' cmdLine' :
  renders_with os this cx outPath cmdLine →
  renders_with os this cx outPath' cmdLine' →
  outPath = outPath' ∧ cmdLine = cmdLine'.
Proof.
  intros (Hc & _ & cli & Hcli & _ & Hcmd) (Hc' & _ & cli' & Hcli' & _ & Hcmd').
  destruct (cache_file_unique _ _ _ _ _ Hc Hc').
  rewrite Hcli in Hcli'. injection Hcli' as <-.
  rewrite Hcmd in Hcmd'. by injection Hcmd' as <-.
Qed.

(** X7. A run of [GetThumbnail] calls [CreateProcessW] at most once and
    [WaitForSingleObject] at most once, always with a timeout of 5000,
    and spends at most 5000 ms waiting. *)
Theorem GetThumbnail_launches_once_and_waits_5000 os this cx :
  (length (List.filter is_CreateProcessW
                       (calls (run (GetThumbnail this cx) os))) ≤ 1)%nat
  ∧ (length (List.filter is_WaitForSingleObject
                         (calls (run (GetThumbnail this cx) os))) ≤ 1)%nat
  ∧ (∀ ms, call_WaitForSingleObject ms
           ∈ calls (run (GetThumbnail this cx) os) → ms = 5000)
  ∧ 0 ≤ clock (final (run (GetThumbnail this cx) os)) ≤ 5000.
Proof.
  destruct (GetThumbnail_final this cx os) as (cs' & Hfinal & Hcs').
  unfold calls. rewrite Hfinal. cbn [trace clock logged].
  assert (∀ l, Forall (λ c, is_process_call c = false) l →
               List.filter is_CreateProcessW l = []
               ∧ List.filter is_WaitForSingleObject l = []
               ∧ ∀ ms, call_WaitForSingleObject ms ∉ l) as Hquiet.
  { induction 1 as [|c l Hc _ (IH1 & IH2 & IH3)]; [by split; [|split; [|intros ? ?%elem_of_nil]]|].
    split; [|split].
    - simpl. by destruct c.
    - simpl. by destruct c.
    - intros ms [<-|Hin]%elem_of_cons; [done | by eapply IH3]. }
  destruct (GenerateThumbnail_shape os this cx EmptyString)
    as [(outPath & cmdLine & cs & tail & _ & Hcalls & Hcs & Htail & Hclock)
       |(_ & Hcs & Hclock)].
  - unfold calls in Hcalls. rewrite Hcalls.
    destruct (Hquiet cs Hcs) as (Hc1 & Hc2 & Hc3).
    destruct (Hquiet cs' Hcs') as (Hc1' & Hc2' & Hc3').
    rewrite <- !app_assoc. rewrite !List.filter_app, Hc1, Hc2, Hc1', Hc2'.
    split; [|split; [|split]].
    + destruct Htail as [->| ->]; simpl; lia.
    + destruct Htail as [->| ->]; simpl; lia.
    + intros ms [Hin|[Hin|Hin]%elem_of_app]%elem_of_app.
      * by apply Hc3 in Hin.
      * apply elem_of_cons in Hin as [[=]|Hin].
        destruct Htail as [->| ->]; [by apply elem_of_nil in Hin|].
        unfold after_launch in Hin.
        repeat (apply elem_of_cons in Hin as [Hin|Hin];
                  [first [discriminate Hin | by injection Hin]|]).
        by apply elem_of_nil in Hin.
      * by apply Hc3' in Hin.
    + done.
  - unfold calls in Hcs.
    destruct (Hquiet _ Hcs) as (Hc1 & Hc2 & Hc3).
    destruct (Hquiet cs' Hcs') as (Hc1' & Hc2' & Hc3').
    rewrite !List.filter_app, Hc1, Hc2, Hc1', Hc2'.
    split; [simpl; lia|]. split; [simpl; lia|]. split; [|lia].
    intros ms [Hin|Hin]%elem_of_app; [by apply Hc3 in Hin | by apply Hc3' in Hin].
Qed.

(** X8. A run of [GetThumbnail] launches a process exactly when the
    provider's file can be read, its key fits, no file is at the cache
    location, [FindWireTunerCLI] finds a renderer and the command line
    fits its buffer; the command line is then
    ["<renderer>" --generate-thumbnail "<file>" "<cache location>" --size <cx>]
    and the renderer is a file that exists. *)
Theorem renderer_launched_iff os this cx cmdLine :
  call_CreateProcessW cmdLine ∈ calls (run (GetThumbnail this cx) os)
  ↔ ∃ outPath cliPath,
      cache_file os this cx outPath
      ∧ files os !! outPath = None
      ∧ result (run FindWireTunerCLI os) = Some cliPath
      ∧ wstring.empty cliPath = false
      ∧ is_Some (files os !! cliPath)
      ∧ cmdLine = cmdLine_text cliPath (m_filePath this) outPath cx
      ∧ (String.length cmdLine < 2048)%nat.
Proof.
  destruct (GetThumbnail_final this cx os) as (cs' & Hfinal & Hcs').
  unfold calls. rewrite Hfinal. cbn [trace logged].
  assert (∀ l, Forall (λ c, is_process_call c = false) l →
               call_CreateProcessW cmdLine ∉ l) as Hquiet.
  { intros l Hl Hin. rewrite Forall_forall in Hl. by apply Hl in Hin. }
  destruct (GenerateThumbnail_shape os this cx EmptyString)
    as [(outPath & cmd & cs & tail & Hr & Hcalls & Hcs & Htail & _)
       |(Hnone & Hcs & _)].
  - unfold calls in Hcalls. rewrite Hcalls. split.
    + intros [[Hin|Hin]%elem_of_app|Hin]%elem_of_app;
        [by apply Hquiet in Hin| |by apply Hquiet in Hin].
      apply elem_of_cons in Hin as [[= ->]|Hin].
      * destruct Hr as (Hc & Hmiss & cli & Hcli & Hne & Hcmd).
        apply swprintf_s_Some in Hcmd as [-> Hlen].
        exists outPath, cli. repeat split; try done.
        destruct (run FindWireTunerCLI os) as [cli' σ'|] eqn:Hrun; [|done].
        injection Hcli as ->.
        by apply (FindWireTunerCLI_sound os (boot os) cli σ').
      * destruct Htail as [->| ->]; [by apply elem_of_nil in Hin|].
        unfold after_launch in Hin.
        repeat (apply elem_of_cons in Hin as [Hin|Hin]; [done|]).
        by apply elem_of_nil in Hin.
    + intros (outPath' & cli & Hc & Hmiss & Hcli & Hne & _ & -> & Hlen).
      assert (renders_with os this cx outPath'
                (cmdLine_text cli (m_filePath this) outPath' cx)) as Hr'.
      { split; [done|]. split; [done|]. exists cli.
        split; [done|]. split; [done|]. by apply swprintf_s_fits. }
      destruct (renders_with_unique _ _ _ _ _ _ _ Hr Hr') as [_ <-].
      apply elem_of_app. left. apply elem_of_app. right. by left.
  - split.
    + unfold calls in Hcs.
      intros [Hin|Hin]%elem_of_app; by apply Hquiet in Hin.
    + intros (outPath' & cli & Hc & Hmiss & Hcli & Hne & _ & -> & Hlen).
      destruct (Hnone outPath' (cmdLine_text cli (m_filePath this) outPath' cx)).
      split; [done|]. split; [done|]. exists cli.
      split; [done|]. split; [done|]. by apply swprintf_s_fits.
Qed.

(** ** Cache keys, read back *)

Lemma string_app_cons a (s t : string) : String a s +:+ t = String a (s +:+ t).
Proof. reflexivity. Qed.

Lemma string_app_nil_l (t : string) : EmptyString +:+ t = t.
Proof. reflexivity. Qed.

Lemma string_app_assoc (s t u : string) : (s +:+ t) +:+ u = s +:+ t +:+ u.
Proof.
  induction s as [|a s IH]; [done|].
  by rewrite !string_app_cons, IH.
Qed.

Lemma free_of_cons c a s :
  free_of c (String a s) ↔ a ≠ c ∧ free_of c s.
Proof.
  unfold free_of. simpl. destruct (Ascii.eqb_spec a c) as [->|Hne].
  - split; [done | by intros [[] _]].
  - destruct (wstring.find c s); simpl; split;
      [done | by intros [_ ?] | done | done].
Qed.

Lemma free_of_app c s t : free_of c (s +:+ t) ↔ free_of c s ∧ free_of c t.
Proof.
  induction s as [|a s IH].
  - rewrite string_app_nil_l. split; [by split | by intros [_ ?]].
  - rewrite string_app_cons, !free_of_cons, IH. tauto.
Qed.

Lemma pretty_N_char_no_dash d : pretty_N_char d ≠ "-"%char.
Proof. unfold pretty_N_char. by repeat case_match. Qed.

Lemma pretty_N_go_free x s :
  free_of "-" s → free_of "-" (pretty_N_go x s).
Proof.
  revert s. induction (N.lt_wf_0 x) as [x _ IH]; intros s Hs.
  destruct (decide (x = 0)%N) as [->|Hx]; [by rewrite pretty_N_go_0|].
  rewrite pretty_N_go_step by lia. apply IH.
  - apply N.div_lt; lia.
  - apply free_of_cons. split; [apply pretty_N_char_no_dash | done].
Qed.

Lemma pretty_N_free (n : N) : free_of "-" (pretty n).
Proof.
  unfold pretty, pretty_N. case_decide; [done|]. by apply pretty_N_go_free.
Qed.

Lemma split_at_last_dash (x x' r r' : string) :
  free_of "-" r → free_of "-" r' →
  x +:+ "-" +:+ r = x' +:+ "-" +:+ r' → x = x' ∧ r = r'.
Proof.
  intros Hr Hr'. revert x'.
  induction x as [|a x IH]; intros [|a' x'] Heq;
    rewrite ?string_app_cons, ?string_app_nil_l in Heq.
  - by injection Heq as ->.
  - injection Heq as <- ->.
    apply free_of_app in Hr as [_ Hr]. discriminate Hr.
  - injection Heq as -> <-.
    apply free_of_app in Hr' as [_ Hr']. discriminate Hr'.
  - injection Heq as -> Heq. by destruct (IH x' Heq) as [-> ->].
Qed.

Lemma cacheKey_text_parts filePath t n :
  cacheKey_text filePath t n
  = (PathFindFileNameW filePath +:+ "-" +:+ fmt_llu t)
    +:+ "-" +:+ (fmt_u n +:+ ".png")
  ∧ free_of "-" (fmt_u n +:+ ".png")
  ∧ free_of "-" (fmt_llu t).
Proof.
  split; [|split].
  - unfold cacheKey_text. by rewrite !string_app_assoc.
  - apply free_of_app. split; [apply pretty_N_free | done].
  - apply pretty_N_free.
Qed.

Lemma cacheKey_text_inj filePath filePath' t t' n n' :
  is_ULONGLONG t → is_ULONGLONG t' → is_UINT n → is_UINT n' →
  cacheKey_text filePath t n = cacheKey_text filePath' t' n' →
  PathFindFileNameW filePath = PathFindFileNameW filePath'
  ∧ t = t' ∧ n = n'.
Proof.
  intros Ht Ht' Hn Hn' Heq.
  destruct (cacheKey_text_parts filePath t n) as (Hl & Hfn & Hft).
  destruct (cacheKey_text_parts filePath' t' n') as (Hl' & Hfn' & Hft').
  rewrite Hl, Hl' in Heq.
  apply split_at_last_dash in Heq as [Hfront Hback]; [|done..].
  apply app_inv_tail in Hback.
  apply split_at_last_dash in Hfront as [Hbase Htime]; [|done..].
  split; [done|]. split; [by apply fmt_llu_inj | by apply fmt_u_inj].
Qed.

(** X9. Two requests whose keys are derived get the same cache key
    exactly when the base names of their paths, their modification
    times and their sizes are the same: a key can be read back, and two
    files with one base name and one modification time share their
    cache entries, whatever their directories. *)
Theorem cacheKey_identifies_base_time_size
    filePath filePath' t t' n n' k k' :
  is_ULONGLONG t → is_ULONGLONG t' → is_UINT n → is_UINT n' →
  cacheKey filePath t n = Some k →
  cacheKey filePath' t' n' = Some k' →
  k = k' ↔ PathFindFileNameW filePath = PathFindFileNameW filePath'
           ∧ t = t' ∧ n = n'.
Proof.
  intros Ht Ht' Hn Hn' Hk Hk'.
  apply swprintf_s_Some in Hk as [-> _].
  apply swprintf_s_Some in Hk' as [-> _].
  split.
  - by apply cacheKey_text_inj.
  - intros (Hbase & -> & ->). unfold cacheKey_text. by rewrite Hbase.
Qed.

Lemma cacheKey_identifies_base_time_size_witness :
  "draft.wiretuner-1700000000-256.png" = "draft.wiretuner-1700000000-256.png"
  ↔ PathFindFileNameW "C:\a\draft.wiretuner"
    = PathFindFileNameW "D:\b\draft.wiretuner"
    ∧ 1700000000 = 1700000000 ∧ 256 = 256.
Proof.
  apply (cacheKey_identifies_base_time_size
           "C:\a\draft.wiretuner" "D:\b\draft.wiretuner"
           1700000000 1700000000 256 256).
  - unfold is_ULONGLONG. lia.
  - unfold is_ULONGLONG. lia.
  - unfold is_UINT, UINT_MAX. lia.
  - unfold is_UINT, UINT_MAX. lia.
  - reflexivity.
  - reflexivity.
Defined.

(** ** The key buffer is large enough for ordinary paths *)

Lemma pretty_N_go_length k x s :
  (x < 10 ^ N.of_nat k)%N →
  (String.length (pretty_N_go x s) ≤ k + String.length s)%nat.
Proof.
  revert x s. induction k as [|k IH]; intros x s Hx.
  - assert (x = 0%N) as -> by (simpl in Hx; lia).
    by rewrite pretty_N_go_0.
  - destruct (decide (x = 0)%N) as [->|Hne].
    + rewrite pretty_N_go_0. lia.
    + rewrite pretty_N_go_step by lia.
      etrans; [apply IH|simpl; lia].
      rewrite Nat2N.inj_succ, N.pow_succ_r' in Hx.
      apply N.Div0.div_lt_upper_bound. lia.
Qed.

Lemma pretty_N_length k (x : N) :
  (0 < k)%nat → (x < 10 ^ N.of_nat k)%N →
  (String.length (pretty x) ≤ k)%nat.
Proof.
  intros Hk Hx. unfold pretty, pretty_N. case_decide.
  - simpl. lia.
  - pose proof (pretty_N_go_length k x EmptyString Hx). simpl in *. lia.
Qed.

Lemma fmt_u_length z : (String.length (fmt_u z) ≤ 10)%nat.
Proof.
  unfold fmt_u. apply pretty_N_length; [lia|].
  pose proof (Z.mod_pos_bound z (2 ^ 32) ltac:(lia)).
  change (10 ^ N.of_nat 10)%N with (Z.to_N (10 ^ 10)). lia.
Qed.

Lemma fmt_llu_length z : (String.length (fmt_llu z) ≤ 20)%nat.
Proof.
  unfold fmt_llu. apply pretty_N_length; [lia|].
  pose proof (Z.mod_pos_bound z (2 ^ 64) ltac:(lia)).
  change (10 ^ N.of_nat 20)%N with (Z.to_N (10 ^ 20)). lia.
Qed.

Lemma PathFindFileNameW_from_length last s :
  (String.length last ≤ String.length s + String.length last)%nat →
  (String.length (PathFindFileNameW_from last s)
   ≤ Nat.max (String.length last) (String.length s))%nat.
Proof.
  revert last. induction s as [|c rest IH]; intros last _; simpl; [lia|].
  destruct (is_separator c && starts_name rest).
  - etrans; [apply IH; lia|]. lia.
  - etrans; [apply IH; lia|]. lia.
Qed.

Lemma PathFindFileNameW_length path :
  (String.length (PathFindFileNameW path) ≤ String.length path)%nat.
Proof.
  unfold PathFindFileNameW.
  etrans; [apply PathFindFileNameW_from_length; lia|]. lia.
Qed.

(** X10. The key of a path of at most 475 characters always fits the
    key buffer, whatever the modification time and the size: for such a
    path, and so for any path within [MAX_PATH], the key is derived and
    has at most 511 characters. *)
Theorem cacheKey_fits_short_paths filePath t cx :
  (String.length filePath ≤ 475)%nat →
  cacheKey filePath t cx = Some (cacheKey_text filePath t cx)
  ∧ (String.length (cacheKey_text filePath t cx) ≤ 511)%nat.
Proof.
  intros Hlen.
  assert (String.length (cacheKey_text filePath t cx) ≤ 511)%nat as Hfit.
  { unfold cacheKey_text. rewrite !length_app.
    pose proof (PathFindFileNameW_length filePath).
    pose proof (fmt_llu_length t). pose proof (fmt_u_length cx).
    simpl. lia. }
  split; [|done]. apply swprintf_s_fits. lia.
Qed.

Lemma cacheKey_fits_short_paths_witness :
  cacheKey Samples.draft_path 1700000000 256
  = Some (cacheKey_text Samples.draft_path 1700000000 256)
  ∧ (String.length (cacheKey_text Samples.draft_path 1700000000 256)
     ≤ 511)%nat.
Proof.
  apply (cacheKey_fits_short_paths Samples.draft_path 1700000000 256).
  vm_compute. lia.
Defined.

(** ** Files that share a cache entry *)

Lemma GetThumbnail_hit_result os this cx outPath :
  cache_file os this cx outPath →
  is_Some (files os !! outPath) →
  result (run (GetThumbnail this cx) os)
  = Some match files os !! outPath ≫= image with
         | Some bitmap =>
             mkThumbnail
               (status_of (converted os bitmap (Color4 255 255 255 255)))
               (converted os bitmap (Color4 255 255 255 255)) WTSAT_ARGB
         | None => fallback os cx
         end.
Proof.
  intros (file & key & Hfile & Hkey & ->) Hhit. unfold run.
  rewrite GetThumbnail_run.
  rewrite (GenerateThumbnail_cached os this cx _ (boot os) file key) by done.
  cbn [FAILED S_OK Z.ltb Z.compare fs logged boot].
  by destruct (files os !! _ ≫= image).
Qed.

(** X11. Two files with the same base name and the same modification
    time share their cache entry: once a file exists at that cache
    location, a request for either file returns the same outcome, the
    image cached there, whichever file it was made from. *)
Theorem same_named_files_share_cache_entry
    os this this' cx file file' outPath :
  files os !! m_filePath this = Some file →
  files os !! m_filePath this' = Some file' →
  PathFindFileNameW (m_filePath this) = PathFindFileNameW (m_filePath this') →
  modTime_of file = modTime_of file' →
  cache_file os this cx outPath →
  is_Some (files os !! outPath) →
  cache_file os this' cx outPath
  ∧ result (run (GetThumbnail this' cx) os)
    = result (run (GetThumbnail this cx) os).
Proof.
  intros Hfile Hfile' Hbase Htime Hcache Hhit.
  assert (cache_file os this' cx outPath) as Hcache'.
  { destruct Hcache as (f & key & Hf & Hkey & ->).
    rewrite Hfile in Hf. injection Hf as <-.
    exists file', key. split; [done|]. split; [|done].
    rewrite <- Hkey, <- Htime. unfold cacheKey, cacheKey_text.
    by rewrite Hbase. }
  split; [done|].
  by rewrite !(GetThumbnail_hit_result _ _ _ outPath).
Qed.

Lemma same_named_files_share_cache_entry_witness :
  cache_file Aliases.shared_cache (Initialize Aliases.other_path) 256
             Samples.draft_png
  ∧ result (run (GetThumbnail (Initialize Aliases.other_path) 256)
                Aliases.shared_cache)
    = result (run (GetThumbnail Samples.draft_provider 256)
                  Aliases.shared_cache).
Proof.
  apply (same_named_files_share_cache_entry Aliases.shared_cache
           Samples.draft_provider (Initialize Aliases.other_path) 256
           Samples.draft Samples.draft Samples.draft_png).
  - reflexivity.
  - reflexivity.
  - reflexivity.
  - reflexivity.
  - exists Samples.draft, "draft.wiretuner-1700000000-256.png".
    repeat split; reflexivity.
  - eexists. reflexivity.
Defined.

(** ** When a run ends in the invalid-parameter handler *)

(** X12. A run of [GetThumbnail] ends in the CRT's invalid-parameter
    handler in two cases only: the provider's file can be read and its
    key text has more than 511 characters, or the request misses the
    cache, a renderer is found and the command line has more than 2047
    characters.  In every other case the run returns. *)
Theorem GetThumbnail_aborts_iff os this cx :
  (∃ σ, run (GetThumbnail this cx) os = InvalidParameter σ)
  ↔ (∃ file,
       files os !! m_filePath this = Some file
       ∧ (511 < String.length
                  (cacheKey_text (m_filePath this) (modTime_of file) cx))%nat)
    ∨ (∃ outPath cliPath,
         cache_file os this cx outPath
         ∧ files os !! outPath = None
         ∧ result (run FindWireTunerCLI os) = Some cliPath
         ∧ wstring.empty cliPath = false
         ∧ (2047 < String.length
                     (cmdLine_text cliPath (m_filePath this) outPath cx))%nat).
Proof.
  assert (∀ n text, swprintf_s (S n) text = None ↔ (n < String.length text)%nat)
    as Hover.
  { intros n text. unfold swprintf_s. case_decide; split; (done || lia). }
  assert ((∃ σ, run (GetThumbnail this cx) os = InvalidParameter σ)
          ↔ ∃ σ, run (GenerateThumbnail this cx EmptyString) os
                 = InvalidParameter σ) as ->.
  { unfold run. rewrite GetThumbnail_run.
    destruct (GenerateThumbnail this cx EmptyString os (boot os))
      as [[hr path] σ1|σ1].
    - destruct (FAILED hr); [by split; intros [? ?]|].
      destruct (fs σ1 !! path ≫= image); by split; intros [? ?].
    - by split; intros _; eexists. }
  unfold run.
  destruct (files os !! m_filePath this) as [file|] eqn:Hfile; cycle 1.
  { rewrite GenerateThumbnail_unreadable by done. split.
    - by intros [? ?].
    - intros [(file & [=] & _)|(outPath & cli & (f & key & Hf & _) & _)].
      congruence. }
  destruct (cacheKey (m_filePath this) (modTime_of file) cx) as [key|] eqn:Hkey;
    cycle 1.
  { rewrite (GenerateThumbnail_key_overflow os this cx _ (boot os) file)
      by done.
    split; [intros _|by eexists]. left. exists file. split; [done|].
    by apply (Hover 511%nat). }
  assert (cache_file os this cx (cacheDir (temp_path os) +:+ key)) as Hcache
    by (by exists file, key).
  assert (¬ (511 < String.length
               (cacheKey_text (m_filePath this) (modTime_of file) cx))%nat)
    as Hfits.
  { intros Hlong. apply (Hover 511%nat) in Hlong.
    unfold cacheKey in Hkey. congruence. }
  set (outPath := cacheDir (temp_path os) +:+ key) in *.
  destruct (files os !! outPath) as [cached|] eqn:Hloc.
  { rewrite (GenerateThumbnail_cached os this cx _ (boot os) file key)
      by (try done; by exists cached).
    split; [by intros [? ?]|].
    intros [(f & Hf & Hlong)|(outPath' & cli & Hc & Hmiss & _)].
    - by injection Hf as <-.
    - rewrite <- (cache_file_unique _ _ _ _ _ Hcache Hc) in Hmiss. congruence. }
  rewrite (GenerateThumbnail_miss os this cx _ (boot os) file key) by done.
  fold outPath.
  destruct (run FindWireTunerCLI os) as [cli σf|σf] eqn:Hfind; cycle 1.
  { destruct (FindWireTunerCLI_anywhere os (boot os) eq_refl)
      as (? & ? & Hboot & _). congruence. }
  edestruct (render_run os this cx outPath) as (σ1 & _ & ->);
    [|by rewrite Hfind|]; [done|].
  destruct (wstring.empty cli) eqn:Hempty.
  { split; [by intros [? ?]|].
    intros [(f & Hf & Hlong)|(outPath' & cli' & _ & _ & Hcli' & Hne & _)].
    - by injection Hf as <-.
    - unfold run in Hfind. rewrite Hfind in Hcli'. cbn in Hcli'. congruence. }
  destruct (swprintf_s 2048 _) as [cmdLine|] eqn:Hcmd.
  - destruct (ExecuteCLI_shape os σ1 cmdLine) as (hr & σ' & ? & -> & _).
    split; [by intros [? ?]|].
    intros [(f & Hf & Hlong)|(outPath' & cli' & Hc & _ & Hcli' & _ & Hlong)].
    + by injection Hf as <-.
    + unfold run in Hfind. rewrite Hfind in Hcli'. cbn in Hcli'. injection Hcli' as <-.
      rewrite <- (cache_file_unique _ _ _ _ _ Hcache Hc) in Hlong.
      apply (Hover 2047%nat) in Hlong. congruence.
  - split; [intros _|by eexists]. right. exists outPath, cli.
    split; [done|]. split; [done|].
    split; [unfold run in Hfind; by rewrite Hfind|]. split; [done|].
    by apply (Hover 2047%nat).
Qed.

(** ** Reference counts *)

(** X13. For an object holding between 1 and [INT_MAX] references,
    [Release] returns one less and destroys the object exactly when
    that is zero; below [INT_MAX], [AddRef] returns one more and a
    following [Release] leaves the object as it was. *)
Theorem Release_destroys_at_zero {A} (this : Counted A) :
  1 ≤ m_refCount this ≤ INT_MAX →
  (Release this).1 = m_refCount this - 1
  ∧ ((Release this).2 = None ↔ m_refCount this = 1)
  ∧ (m_refCount this < INT_MAX →
     (AddRef this).1 = m_refCount this + 1
     ∧ Release (AddRef this).2 = (m_refCount this, Some this)).
Proof.
  intros Hc. unfold INT_MAX in Hc.
  assert (to_UINT (to_INT (m_refCount this - 1)) = m_refCount this - 1) as Hdec.
  { rewrite to_INT_id by (unfold INT_MAX; lia).
    apply to_UINT_id. unfold is_UINT, UINT_MAX. lia. }
  split; [|split].
  - unfold Release, InterlockedDecrement. rewrite Hdec.
    by destruct (m_refCount this - 1 =? 0).
  - unfold Release, InterlockedDecrement. rewrite Hdec.
    destruct (Z.eqb_spec (m_refCount this - 1) 0); simpl; split; intros ?;
      first [done | lia | exfalso; lia].
  - intros Hlt. unfold INT_MAX in Hlt.
    assert (to_INT (m_refCount this + 1) = m_refCount this + 1) as Hinc
      by (apply to_INT_id; unfold INT_MAX; lia).
    split.
    + unfold AddRef, InterlockedIncrement. cbn [fst]. rewrite Hinc.
      apply to_UINT_id. unfold is_UINT, UINT_MAX. lia.
    + unfold AddRef, Release, InterlockedIncrement, InterlockedDecrement.
      cbn [snd m_refCount members]. rewrite Hinc.
      replace (m_refCount this + 1 - 1) with (m_refCount this) by lia.
      rewrite (to_INT_id (m_refCount this)) by (unfold INT_MAX; lia).
      rewrite to_UINT_id by (unfold is_UINT, UINT_MAX; lia).
      destruct (Z.eqb_spec (m_refCount this) 0); [lia|].
      by destruct this.
Qed.

Lemma Release_destroys_at_zero_witness :
  (Release Provider.new).1 = 1 - 1
  ∧ ((Release Provider.new).2 = None ↔ 1 = 1)
  ∧ (1 < INT_MAX →
     (AddRef Provider.new).1 = 1 + 1
     ∧ Release (AddRef Provider.new).2 = (1, Some Provider.new)).
Proof.
  apply (Release_destroys_at_zero Provider.new).
  unfold INT_MAX. simpl. lia.
Defined.

(** ** The class factory *)

Lemma CreateInstance_cases pUnkOuter riid ppv :
  Factory.CreateInstance pUnkOuter riid ppv
  = match pUnkOuter with
    | Some _ => (CLASS_E_NOAGGREGATION, ppv, None)
    | None =>
        if decide (riid = IID_IThumbnailProvider ∨ riid = IID_IUnknown)
        then (S_OK, Some IID_IThumbnailProvider,
              Some (mkCounted 1 (mkProvider EmptyString)))
        else if decide (riid = IID_IInitializeWithFile)
        then (S_OK, Some IID_IInitializeWithFile,
              Some (mkCounted 1 (mkProvider EmptyString)))
        else (E_NOINTERFACE, None, None)
    end.
Proof.
  destruct pUnkOuter as [outer|]; [done|].
  unfold Factory.CreateInstance, Provider.QueryInterface, QISearch,
    Provider.qit.
  cbn [list_find].
  destruct (decide (riid = IID_IThumbnailProvider ∨ riid = IID_IUnknown))
    as [[->| ->]|Hn1]; [reflexivity..|].
  destruct (decide (riid = IID_IInitializeWithFile)) as [->|Hn2];
    [reflexivity|].
  rewrite decide_False by (intros <-; apply Hn1; by left).
  rewrite decide_False by congruence.
  cbn [fmap option_fmap option_map].
  rewrite decide_False by (intros ->; apply Hn1; by right).
  reflexivity.
Qed.

(** X14. [CreateInstance] refuses aggregation without making an object
    or touching [*ppv].  Otherwise, for [IThumbnailProvider],
    [IInitializeWithFile] and [IUnknown] it returns [S_OK] and a
    provider with an empty path that holds exactly one reference, the
    caller's; for any other interface it returns [E_NOINTERFACE] with a
    null [*ppv], and the provider it made has been destroyed. *)
Theorem CreateInstance_leaves_one_reference pUnkOuter riid ppv :
  Factory.CreateInstance pUnkOuter riid ppv
  = match pUnkOuter with
    | Some _ => (CLASS_E_NOAGGREGATION, ppv, None)
    | None =>
        if decide (riid = IID_IThumbnailProvider ∨ riid = IID_IUnknown)
        then (S_OK, Some IID_IThumbnailProvider,
              Some (mkCounted 1 (mkProvider EmptyString)))
        else if decide (riid = IID_IInitializeWithFile)
        then (S_OK, Some IID_IInitializeWithFile,
              Some (mkCounted 1 (mkProvider EmptyString)))
        else (E_NOINTERFACE, None, None)
    end.
Proof. apply CreateInstance_cases. Qed.


(** X15. [DllGetClassObject] answers any class but the provider's with
    [CLASS_E_CLASSNOTAVAILABLE], making no object and leaving [*ppv] as
    it was.  For the provider's class it returns [S_OK] and a factory
    holding exactly one reference when [IUnknown] or [IClassFactory] is
    asked for; for any other interface it returns [E_NOINTERFACE] with
    a null [*ppv], and the factory it made has been destroyed. *)
Theorem DllGetClassObject_outcome rclsid riid ppv :
  DllGetClassObject rclsid riid ppv
  = if decide (rclsid = CLSID_WireTunerThumbnailProvider)
    then if decide (riid = IID_IUnknown ∨ riid = IID_IClassFactory)
         then (S_OK, Some IID_IClassFactory, Some (mkCounted 1 tt))
         else (E_NOINTERFACE, None, None)
    else (CLASS_E_CLASSNOTAVAILABLE, ppv, None).
Proof.
  unfold DllGetClassObject, Factory.QueryInterface.
  destruct (decide (rclsid = CLSID_WireTunerThumbnailProvider)) as [->|Hc];
    [|by rewrite bool_decide_eq_false_2].
  rewrite bool_decide_eq_true_2 by done.
  destruct (decide (riid = IID_IUnknown ∨ riid = IID_IClassFactory))
    as [[->| ->]|Hn]; [reflexivity..|].
  rewrite !bool_decide_eq_false_2; [reflexivity|..].
  - intros ->. apply Hn. by right.
  - intros ->. apply Hn. by left.
Qed.

(** X16. A provider that the factory has just made and on which
    [Initialize] was not called has an empty path: when no file is
    named by the empty path, [GetThumbnail] reads the temp path, makes
    the cache directory, fails to read the file's attributes and falls
    back to the placeholder, without testing any cache location or
    looking for the renderer. *)
Theorem uninitialized_provider_falls_back os riid ppv hr ppv' provider cx :
  Factory.CreateInstance None riid ppv = (hr, ppv', Some provider) →
  files os !! EmptyString = None →
  run (GetThumbnail (members provider) cx) os
  = Returned (fallback os cx)
      (logged (boot os)
         [call_GetTempPathW;
          call_CreateDirectoryW (cacheDir (temp_path os));
          call_GetFileAttributesExW EmptyString]).
Proof.
  intros Hcreate Hnone.
  assert (members provider = mkProvider EmptyString) as ->.
  { rewrite CreateInstance_cases in Hcreate.
    destruct (decide _); [by inversion Hcreate|].
    destruct (decide _); by inversion Hcreate. }
  unfold run. rewrite GetThumbnail_run.
  by rewrite GenerateThumbnail_unreadable.
Qed.

Lemma uninitialized_provider_falls_back_witness :
  run (GetThumbnail (mkProvider EmptyString) 256) Samples.bare
  = Returned (fallback Samples.bare 256)
      (logged (boot Samples.bare)
         [call_GetTempPathW;
          call_CreateDirectoryW (cacheDir (temp_path Samples.bare));
          call_GetFileAttributesExW EmptyString]).
Proof.
  apply (uninitialized_provider_falls_back Samples.bare
           IID_IThumbnailProvider None S_OK (Some IID_IThumbnailProvider)
           (mkCounted 1 (mkProvider EmptyString)) 256).
  - reflexivity.
  - reflexivity.
Defined.

(** ** When the renderer is not found *)

Lemma join_PATH_empty dirs last :
  join_PATH dirs last = EmptyString → dirs = [].
Proof.
  destruct dirs as [|dir dirs]; [done|]. cbn [join_PATH foldr].
  intros Heq. apply (f_equal String.length) in Heq.
  rewrite !length_app in Heq. simpl in Heq. lia.
Qed.

Lemma exe_in_not_empty dir : wstring.empty (exe_in dir) = false.
Proof. by destruct dir. Qed.

(** X17. With [PATH] made of directories that are each followed by
    [';'] and of a remainder without [';'], [FindWireTunerCLI] returns
    the empty string exactly when neither installation path exists and
    [<dir>\wiretuner.exe] exists for none of those directories; a
    renderer in the remainder does not count. *)
Theorem FindWireTunerCLI_not_found_iff os σ dirs last :
  environment os !! "PATH" = Some (join_PATH dirs last) →
  Forall (free_of ";") dirs →
  free_of ";" last →
  result (FindWireTunerCLI os σ) = Some EmptyString
  ↔ ∀ p, p ∈ searchPaths ++ (exe_in <$> dirs) → fs σ !! p = None.
Proof.
  intros Henv Hdirs Hlast.
  assert (∀ l, first_existing (fs σ) l = None
               ↔ ∀ p, p ∈ l → fs σ !! p = None) as Hnone.
  { intros l. unfold first_existing. rewrite list_find_None, Forall_forall.
    split; intros H p Hp; specialize (H p Hp).
    - by destruct (fs σ !! p); [destruct H; eexists|].
    - rewrite H. by intros [? [=]]. }
  destruct (first_existing (fs σ) searchPaths) as [[i p]|] eqn:Hfirst.
  - destruct (FindWireTunerCLI_installed os σ i p Hfirst)
      as (-> & Hin & [file Hex] & _).
    split.
    + intros [= ->]. unfold searchPaths in Hin.
      repeat (apply elem_of_cons in Hin as [[=]|Hin]).
      by apply elem_of_nil in Hin.
    + intros Hall. rewrite Hall in Hex; [done|].
      apply elem_of_app. by left.
  - rewrite FindWireTunerCLI_not_installed, Henv by done.
    pose proof (proj1 (Hnone _) Hfirst) as Hmissing.
    destruct (join_PATH dirs last) as [|a path] eqn:Htext.
    + apply join_PATH_empty in Htext as ->. simpl. split; [|done].
      intros _ p Hp. apply Hmissing. exact Hp.
    + rewrite <- Htext, search_PATH_join by done. cbn [fs logged].
      destruct (first_existing (fs σ) (exe_in <$> dirs)) as [[j q]|] eqn:Hq.
      * apply list_find_Some in Hq as (Hlook & [file Hex] & _).
        split.
        -- intros [= ->].
           apply list_lookup_fmap_Some in Hlook as (dir & Hdir & _).
           pose proof (exe_in_not_empty dir) as Hne. by rewrite <- Hdir in Hne.
        -- intros Hall. rewrite Hall in Hex; [done|].
           apply elem_of_app. right. by eapply list_elem_of_lookup_2.
      * split; [|done]. intros _ p [Hp|Hp]%elem_of_app.
        -- by apply Hmissing.
        -- by apply (proj1 (Hnone _) Hq).
Qed.

Lemma FindWireTunerCLI_not_found_iff_witness :
  result (FindWireTunerCLI Samples.last_on_PATH (boot Samples.last_on_PATH))
  = Some EmptyString
  ↔ ∀ p, p ∈ searchPaths ++ (exe_in <$> ["C:\tools"]) →
         fs (boot Samples.last_on_PATH) !! p = None.
Proof.
  apply (FindWireTunerCLI_not_found_iff Samples.last_on_PATH
           (boot Samples.last_on_PATH) ["C:\tools"] "C:\wt").
  - reflexivity.
  - repeat constructor.
  - reflexivity.
Defined.
